(** * AliTok autoregressive training: orchestrator and logger

    A shallow embedding of [train_ar.py] (the training orchestrator [main])
    and of [utils/logger.py] ([_ColorfulFormatter] and the cached
    [setup_logger]), followed by the properties of the epoch loop, of the
    epoch bookkeeping, of the primary-process gating and of the logger cache.

    Python integers are [Z]; Python exceptions are values of [exn]; code that
    mutates objects threads a state explicitly; everything a run does to the
    outside world is recorded as a trace of [event]s. *)

From Stdlib Require Import ZArith String Ascii List Lia Bool.
From stdpp Require Import base option list strings gmap pretty.
Import ListNotations.

Local Open Scope Z_scope.

(** ** Python values shared by both files *)

Inductive exn : Type :=
| ZeroDivisionError
| OverflowError
| ValueError (what : string)
| KeyError (key : string)
| TypeError (what : string)
| OSError (path : string).

Module Py.

(** A finite binary64 number: the value is [mantissa * 2 ^ exponent], with
    a signed mantissa of at most 53 bits. *)
Record float : Type := {
  mantissa : Z;
  exponent : Z
}.

(** The integer nearest to [p / q], the even one of two that are equally
    near; [0 <= p] and [0 < q]. *)
Definition round_half_even (p q : Z) : Z :=
  let n := p / q in
  let r := p mod q in
  if 2 * r <? q then n
  else if q <? 2 * r then n + 1
  else if Z.even n then n else n + 1.

(** [(p / q) / 2 ^ e] as a fraction of integers. *)
Definition scaled (p q e : Z) : Z * Z :=
  (p * 2 ^ Z.max 0 (- e), q * 2 ^ Z.max 0 e).

(** The exponent that binary64 gives to [p / q] for positive [p] and [q]:
    the [e] with [2^52 <= (p / q) / 2^e < 2^53], and [-1074] where that
    would be less (the subnormal numbers). *)
Definition ulp_exponent (p q : Z) : Z :=
  let e := Z.log2 p - Z.log2 q - 52 in
  let '(n, d) := scaled p q e in
  Z.max (-1074) (if n <? 2 ^ 52 * d then e - 1 else e).

(** [x / y] for integers: the binary64 nearest to the quotient (ties to
    even), [ZeroDivisionError] when [y] is [0], [OverflowError] when the
    nearest binary64 would be [2^1024] or more; a quotient too small for
    binary64 becomes zero. *)
Definition true_divide (x y : Z) : exn + float :=
  if y =? 0 then inl ZeroDivisionError
  else if x =? 0 then inr {| mantissa := 0; exponent := 0 |}
  else
    let e := ulp_exponent (Z.abs x) (Z.abs y) in
    let '(n, d) := scaled (Z.abs x) (Z.abs y) e in
    let m := round_half_even n d in
    if (0 <=? e) && (2 ^ 1024 <=? m * 2 ^ e) then inl OverflowError
    else inr {| mantissa := Z.sgn x * Z.sgn y * m; exponent := e |}.

(** [math.ceil] of a finite binary64. *)
Definition ceil (f : float) : Z :=
  if 0 <=? exponent f then mantissa f * 2 ^ exponent f
  else - ((- mantissa f) / 2 ^ (- exponent f)).

(** [math.ceil(x / y)] for integers [x] and [y]. *)
Definition ceil_div (x y : Z) : exn + Z :=
  match true_divide x y with
  | inl e => inl e
  | inr f => inr (ceil f)
  end.

(** [x // y] *)
Definition floor_div (x y : Z) : exn + Z :=
  if y =? 0 then inl ZeroDivisionError else inr (x / y).

(** [range(a, b)] *)
Definition range (a b : Z) : list Z :=
  map (fun i => a + Z.of_nat i) (seq 0 (Z.to_nat (b - a))).

End Py.

(** ** utils/logger.py *)

Module Logger.

(** *** The parts of [logging] and [termcolor] the file relies on *)

(** Numeric levels of the [logging] module. *)
Definition CRITICAL : Z := 50.
Definition ERROR : Z := 40.
Definition WARNING : Z := 30.
Definition INFO : Z := 20.
Definition DEBUG : Z := 10.
Definition NOTSET : Z := 0.

(** [logging._nameToLevel] *)
Definition _nameToLevel : list (string * Z) :=
  [("CRITICAL", CRITICAL); ("FATAL", CRITICAL); ("ERROR", ERROR);
   ("WARN", WARNING); ("WARNING", WARNING); ("INFO", INFO);
   ("DEBUG", DEBUG); ("NOTSET", NOTSET)]%string.

Fixpoint assoc {V} (k : string) (l : list (string * V)) : option V :=
  match l with
  | [] => None
  | (k', v) :: l' => if String.eqb k k' then Some v else assoc k l'
  end.

(** What is outside the file and is not modelled here but taken as it
    is: [termcolor.colored(text, color, attrs)], whether
    [logging.FileHandler(path)] can open its file, and two built-ins whose
    answers depend on the Unicode tables, [str.upper] and [repr] of a
    string.  A [string] stands for a Python [str] in its UTF-8 encoding. *)
Class Externals : Type := {
  colored : string -> string -> list string -> string;
  can_open : string -> bool;
  upper : string -> string;
  repr : string -> string
}.

(** [logging._checkLevel] on a string: [ValueError("Unknown level: %r")]
    for an unknown name. *)
Definition _checkLevel `{Externals} (level : string) : exn + Z :=
  match assoc level _nameToLevel with
  | Some n => inr n
  | None => inl (ValueError ("Unknown level: " ++ repr level)%string)
  end.

(** [s.replace(old, new)] for a non-empty [old]: every occurrence, scanning
    from the left, occurrences not overlapping.  [skip] counts the
    characters of the occurrence just replaced that are still to be
    dropped. *)
Fixpoint replace_from (old new : string) (skip : nat) (s : string) : string :=
  match s with
  | EmptyString => EmptyString
  | String c s' =>
      match skip with
      | S k => replace_from old new k s'
      | O =>
          if String.prefix old s
          then (new ++ replace_from old new (String.length old - 1) s')%string
          else String c (replace_from old new 0 s')
      end
  end.

Definition replace (s old new : string) : string := replace_from old new 0 s.

(** The attributes of a [logging.LogRecord] that the formatters read, once
    [Formatter.format] has filled in [message] and [asctime].  The records
    here are the ones without exception and stack information, of which
    [Formatter.format] returns what [formatMessage] returns. *)
Record LogRecord : Type := {
  name : string;
  levelno : Z;
  levelname : string;
  asctime : string;
  message : string
}.

Definition set_name (record : LogRecord) (n : string) : LogRecord :=
  {| name := n; levelno := levelno record; levelname := levelname record;
     asctime := asctime record; message := message record |}.

(** [record.__dict__[key]] rendered by [%s]. *)
Definition record_str (record : LogRecord) (key : string) : exn + string :=
  if String.eqb key "name" then inr (name record)
  else if String.eqb key "levelno" then inr (pretty (levelno record))
  else if String.eqb key "levelname" then inr (levelname record)
  else if String.eqb key "asctime" then inr (asctime record)
  else if String.eqb key "message" then inr (message record)
  else inl (KeyError key).

(** [fmt % record.__dict__] for format strings made of text, [%%] and
    [%(key)s] fields, which is all this file uses; anything else after a
    [%] is reported as a [ValueError]. *)
Inductive pstate : Type :=
| Text
| Percent
| InKey (key : string)
| Conversion (key : string).

Definition cons_str (c : ascii) (r : exn + string) : exn + string :=
  match r with
  | inl e => inl e
  | inr s => inr (String c s)
  end.

Fixpoint percent_from (st : pstate) (fmt : string) (record : LogRecord)
  : exn + string :=
  match fmt with
  | EmptyString =>
      match st with
      | Text => inr EmptyString
      | _ => inl (ValueError "incomplete format")
      end
  | String c rest =>
      match st with
      | Text =>
          if Ascii.eqb c "%" then percent_from Percent rest record
          else cons_str c (percent_from Text rest record)
      | Percent =>
          if Ascii.eqb c "%" then cons_str "%" (percent_from Text rest record)
          else if Ascii.eqb c "(" then percent_from (InKey EmptyString) rest record
          else inl (ValueError "unsupported format character")
      | InKey key =>
          if Ascii.eqb c ")" then percent_from (Conversion key) rest record
          else percent_from (InKey (key ++ String c EmptyString)%string) rest record
      | Conversion key =>
          if Ascii.eqb c "s" then
            match record_str record key with
            | inl e => inl e
            | inr v =>
                match percent_from Text rest record with
                | inl e => inl e
                | inr s => inr (v ++ s)%string
                end
            end
          else inl (ValueError "unsupported format character")
      end
  end.

Definition percent_format (fmt : string) (record : LogRecord) : exn + string :=
  percent_from Text fmt record.

(** *** [_ColorfulFormatter] *)

(** A formatter object: [logging.Formatter(fmt)], or a
    [_ColorfulFormatter] with the two attributes its [__init__] sets. *)
Inductive Formatter : Type :=
| PlainFormatter (_fmt : string)
| _ColorfulFormatter (_fmt : string) (_root_name _abbrev_name : string).

(** [_ColorfulFormatter.__init__(fmt, root_name=...)]; [abbrev_name], when
    it is not passed, defaults to [_root_name], and a non-empty
    abbreviation gets a dot appended. *)
Definition _ColorfulFormatter__init__ (fmt : string) (root_name : string)
    (abbrev_name : option string) : Formatter :=
  let _root_name := (root_name ++ ".")%string in
  let _abbrev_name := default _root_name abbrev_name in
  let _abbrev_name :=
    if (0 <? String.length _abbrev_name)%nat
    then (_abbrev_name ++ ".")%string else _abbrev_name in
  _ColorfulFormatter fmt _root_name _abbrev_name.

(** [logging.Formatter.formatMessage]: [self._style.format(record)], which
    reports a field that the record does not have as a [ValueError]. *)
Definition Formatter_formatMessage `{Externals} (fmt : string) (record : LogRecord)
  : exn + string :=
  match percent_format fmt record with
  | inl (KeyError key) =>
      inl (ValueError ("Formatting field not found in record: " ++ repr key)%string)
  | r => r
  end.

(** [formatMessage]: the record comes back with its [name] rewritten, as
    the method assigns to [record.name]. *)
Definition formatMessage `{Externals} (self : Formatter) (record : LogRecord)
  : LogRecord * (exn + string) :=
  match self with
  | PlainFormatter fmt => (record, Formatter_formatMessage fmt record)
  | _ColorfulFormatter fmt _root_name _abbrev_name =>
      let record := set_name record (replace (name record) _root_name _abbrev_name) in
      match Formatter_formatMessage fmt record with
      | inl e => (record, inl e)
      | inr log =>
          if levelno record =? WARNING then
            let prefix := colored "WARNING" "red" ["blink"%string] in
            (record, inr (prefix ++ " " ++ log)%string)
          else if (levelno record =? ERROR) || (levelno record =? CRITICAL) then
            let prefix := colored "ERROR" "red" ["blink"; "underline"]%string in
            (record, inr (prefix ++ " " ++ log)%string)
          else (record, inr log)
      end
  end.

(** *** Handlers and loggers *)

Inductive stream : Type :=
| Stdout                       (* logging.StreamHandler(stream=sys.stdout) *)
| FileStream (path : string).  (* logging.FileHandler(path) *)

(** A handler object; [h_id] is its identity. *)
Record Handler : Type := {
  h_id : nat;
  h_stream : stream;
  h_level : Z;
  h_formatter : Formatter
}.

(** A [logging.Logger]: its own level and its handler list. *)
Record LoggerObj : Type := {
  level : Z;
  handlers : list Handler
}.

Definition is_console (h : Handler) : bool :=
  match h_stream h with Stdout => true | FileStream _ => false end.

Definition is_file (h : Handler) : bool := negb (is_console h).

(** What a handler writes for a record: the stream and the formatted line,
    or the exception that [Handler.handleError] reports instead. *)
Definition output : Type := (stream * (exn + string))%type.

(** The loop of [Logger.callHandlers] over the handlers of one logger, in
    order; each handler whose level admits the record formats and writes
    it.  The one record object goes from handler to handler, so a name
    rewritten by one formatter is what the next one sees.  The line is
    what [formatMessage] makes of the record, which is what the handler
    writes for a record without exception and stack information; the
    handlers of the ancestors, which the record visits next, are those of
    [handler_chain] below. *)
Fixpoint callHandlers `{Externals} (hs : list Handler) (record : LogRecord)
  : list output :=
  match hs with
  | [] => []
  | h :: hs' =>
      if h_level h <=? levelno record then
        let '(record', line) := formatMessage (h_formatter h) record in
        (h_stream h, line) :: callHandlers hs' record'
      else callHandlers hs' record
  end.

Definition is_stdout (o : output) : bool :=
  match o.1 with Stdout => true | FileStream _ => false end.

(** *** [setup_logger] behind [functools.lru_cache] *)

(** The five parameters, as the body of the function sees them. *)
Record Args : Type := {
  arg_name : string;
  arg_log_level : option string;
  arg_color : bool;
  arg_use_accelerate : bool;
  arg_output_file : option string
}.

#[export] Instance Args_eq_dec : EqDecision Args.
Proof. solve_decision. Defined.

(** An argument of a call, tagged with the parameter it is passed for. *)
Inductive Argument : Type :=
| Name (v : string)
| LogLevel (v : option string)
| Color (v : bool)
| UseAccelerate (v : bool)
| OutputFile (v : option string).

#[export] Instance Argument_eq_dec : EqDecision Argument.
Proof. solve_decision. Defined.

(** A call as it is written: the positional arguments, then the keyword
    arguments in their order.  This is what [functools.lru_cache] makes its
    key of, so that the same values passed in another form are another
    key. *)
Record Call : Type := {
  positional : list Argument;
  keywords : list Argument
}.

#[export] Instance Call_eq_dec : EqDecision Call.
Proof. solve_decision. Defined.

(** The place of a parameter in the signature
    [(name, log_level, color, use_accelerate, output_file)]. *)
Definition position (x : Argument) : nat :=
  match x with
  | Name _ => 0
  | LogLevel _ => 1
  | Color _ => 2
  | UseAccelerate _ => 3
  | OutputFile _ => 4
  end.

(** The defaults of the signature. *)
Definition defaults : Args :=
  {| arg_name := "AR"; arg_log_level := None; arg_color := true;
     arg_use_accelerate := true; arg_output_file := None |}.

Definition set_argument (a : Args) (x : Argument) : Args :=
  match x with
  | Name v =>
      {| arg_name := v; arg_log_level := arg_log_level a; arg_color := arg_color a;
         arg_use_accelerate := arg_use_accelerate a;
         arg_output_file := arg_output_file a |}
  | LogLevel v =>
      {| arg_name := arg_name a; arg_log_level := v; arg_color := arg_color a;
         arg_use_accelerate := arg_use_accelerate a;
         arg_output_file := arg_output_file a |}
  | Color v =>
      {| arg_name := arg_name a; arg_log_level := arg_log_level a; arg_color := v;
         arg_use_accelerate := arg_use_accelerate a;
         arg_output_file := arg_output_file a |}
  | UseAccelerate v =>
      {| arg_name := arg_name a; arg_log_level := arg_log_level a;
         arg_color := arg_color a; arg_use_accelerate := v;
         arg_output_file := arg_output_file a |}
  | OutputFile v =>
      {| arg_name := arg_name a; arg_log_level := arg_log_level a;
         arg_color := arg_color a; arg_use_accelerate := arg_use_accelerate a;
         arg_output_file := v |}
  end.

(** How Python binds a call to the signature: the positional arguments
    fill the parameters from the first on, a keyword argument fills the
    parameter it names, a parameter left out takes its default, and a
    parameter given twice is a [TypeError]. *)
Definition bind_arguments (c : Call) : exn + Args :=
  if negb (bool_decide (map position (positional c)
                        = seq 0 (length (positional c))))
  then inl (TypeError "positional argument out of place")
  else if negb (bool_decide (NoDup (map position (positional c ++ keywords c))))
  then inl (TypeError "got multiple values for argument")
  else inr (fold_left set_argument (positional c ++ keywords c) defaults).

(** What a call returns: a new [MultiProcessAdapter] around the logger, or
    the logger itself, which [logging] identifies by its name. *)
Inductive Returned : Type :=
| MultiProcessAdapter (id : nat) (logger : string)
| TheLogger (logger : string).

(** The state of the process that the function reads and writes.  The
    dictionary of [logging.Manager] holds loggers and placeholders under
    their names; here the loggers are one map (with the root logger, which
    [logging] keeps apart, under its name [root]) and the placeholders
    another, each with the names of the loggers below it.  A logger's
    [parent] attribute is the third map. *)
Record State : Type := {
  loggerDict : gmap string LoggerObj;       (* the loggers [logging] knows, by name *)
  placeholders : gmap string (list string); (* the placeholders and their loggers *)
  parent : gmap string string;              (* the parent of each logger but root *)
  next_id : nat;                            (* identity of the next object created *)
  cache : list (Call * Returned)            (* lru_cache entries, most recent first *)
}.

(** A process that has imported the module and called nothing yet. *)
Definition initial_state : State :=
  {| loggerDict := {[ "root"%string := {| level := WARNING; handlers := [] |} ]};
     placeholders := ∅;
     parent := ∅;
     next_id := 0;
     cache := [] |}.

Definition LM (A : Type) : Type := State -> (exn + A) * State.

(** [logging.getLogger(name)]: the root logger for an empty name. *)
Definition logger_key (n : string) : string :=
  if String.eqb n "" then "root"%string else n.

Definition new_logger (key : string) : LoggerObj :=
  {| level := if String.eqb key "root" then WARNING else NOTSET; handlers := [] |}.

Definition lookup_logger (st : State) (key : string) : LoggerObj :=
  default (new_logger key) (loggerDict st !! key).

(** The indices of the dots of [s], counted from [i], the last one first. *)
Fixpoint dots_from (i : nat) (s : string) (acc : list nat) : list nat :=
  match s with
  | EmptyString => acc
  | String c s' => dots_from (S i) s' (if Ascii.eqb c "." then i :: acc else acc)
  end.

(** The values that [i] takes in the loop of [Manager._fixupParents]:
    [name.rfind(".")] first, then [name.rfind(".", 0, i - 1)], as long as
    [i > 0].  [ds] are the indices of the dots, the last one first, and
    [hi] is the end of the slice that is searched. *)
Fixpoint rfind_walk (hi : nat) (ds : list nat) : list nat :=
  match ds with
  | [] => []
  | d :: ds' =>
      if (d <? hi)%nat then
        match d with
        | O => []
        | S d' => d :: rfind_walk d' ds'
        end
      else rfind_walk hi ds'
  end.

(** The prefixes [name[:i]] that the loop looks up, the longest first. *)
Definition ancestors (name : string) : list string :=
  map (fun i => String.substring 0 i name)
    (rfind_walk (String.length name) (dots_from 0 name [])).

(** [PlaceHolder.append] *)
Definition PlaceHolder_append (children : list string) (alogger : string)
  : list string :=
  if bool_decide (alogger ∈ children) then children else children ++ [alogger].

(** The loop of [Manager._fixupParents] for the new logger [alogger]: a
    name that holds nothing gets a placeholder, a placeholder gets the
    logger appended, and the first name that holds a logger ends the loop
    and is the parent.  The root logger is not in the dictionary of
    [logging], so the name [root] holds no logger here. *)
Fixpoint _fixupParents (loggers : gmap string LoggerObj) (alogger : string)
    (substrs : list string) (ph : gmap string (list string))
  : gmap string (list string) * option string :=
  match substrs with
  | [] => (ph, None)
  | substr :: substrs' =>
      if negb (String.eqb substr "root") && bool_decide (is_Some (loggers !! substr))
      then (ph, Some substr)
      else
        _fixupParents loggers alogger substrs'
          (<[substr := PlaceHolder_append (default [] (ph !! substr)) alogger]> ph)
  end.

(** [Manager._fixupChildren]: the loggers of the placeholder that the new
    logger [name] replaces become its children, but for those whose parent
    has a name that starts with [name]. *)
Definition _fixupChildren (name : string) (children : list string)
    (par : gmap string string) : gmap string string :=
  fold_left
    (fun par c =>
       if String.prefix name (default "root"%string (par !! c)) then par
       else <[c := name]> par)
    children par.

(** Whether [getLogger(key)] finds the logger or has to create it. *)
Definition known (st : State) (key : string) : bool :=
  String.eqb key "root" || bool_decide (is_Some (loggerDict st !! key)).

(** The placeholders and the parents after [getLogger(key)]. *)
Definition placeholders_after (st : State) (key : string) : gmap string (list string) :=
  if known st key then placeholders st
  else (_fixupParents (loggerDict st) key (ancestors key)
          (delete key (placeholders st))).1.

Definition parent_after (st : State) (key : string) : gmap string string :=
  if known st key then parent st
  else
    let found :=
      (_fixupParents (loggerDict st) key (ancestors key)
         (delete key (placeholders st))).2 in
    <[key := default "root"%string found]>
      (_fixupChildren key (default [] (placeholders st !! key)) (parent st)).

(** [Manager.getLogger]: a logger that exists is returned as it is; a
    new one takes the place of the placeholder of its name, if there is
    one, adopts the loggers below it and finds its own parent. *)
Definition getLogger (n : string) : LM string :=
  fun st =>
    let key := logger_key n in
    (inr key,
     {| loggerDict := <[key := lookup_logger st key]> (loggerDict st);
        placeholders := placeholders_after st key;
        parent := parent_after st key;
        next_id := next_id st; cache := cache st |}).

Definition setLevel (key : string) (lvl : Z) : LM unit :=
  fun st =>
    let lg := lookup_logger st key in
    (inr tt,
     {| loggerDict := <[key := {| level := lvl; handlers := handlers lg |}]> (loggerDict st);
        placeholders := placeholders st; parent := parent st;
        next_id := next_id st; cache := cache st |}).

(** [logger.addHandler(hdlr)] with a handler that was just constructed. *)
Definition addHandler (key : string) (h : Handler) : LM unit :=
  fun st =>
    let lg := lookup_logger st key in
    (inr tt,
     {| loggerDict := <[key := {| level := level lg; handlers := handlers lg ++ [h] |}]> (loggerDict st);
        placeholders := placeholders st; parent := parent st;
        next_id := next_id st; cache := cache st |}).

(** A new object takes the next identity. *)
Definition fresh_id : LM nat :=
  fun st =>
    (inr (next_id st),
     {| loggerDict := loggerDict st;
        placeholders := placeholders st; parent := parent st;
        next_id := S (next_id st); cache := cache st |}).

Definition lret {A} (a : A) : LM A := fun st => (inr a, st).

Definition lraise {A} (e : exn) : LM A := fun st => (inl e, st).

Definition lbind {A B} (m : LM A) (f : A -> LM B) : LM B :=
  fun st =>
    match m st with
    | (inl e, st') => (inl e, st')
    | (inr a, st') => f a st'
    end.

Declare Scope logger_scope.
Delimit Scope logger_scope with logger.
Notation "x <- c ;; k" := (lbind c (fun x => k))
  (at level 100, c at next level, right associativity) : logger_scope.
Notation "c ;;; k" := (lbind c (fun _ => k))
  (at level 100, right associativity) : logger_scope.

(** The body of [setup_logger], without the cache in front of it. *)
Definition setup_logger__wrapped__ `{Externals} (a : Args) : LM Returned :=
  (logger <- getLogger (arg_name a) ;;
   match arg_log_level a with
   | None => setLevel logger DEBUG
   | Some log_level =>
       match _checkLevel (upper log_level) with
       | inl e => lraise e
       | inr lvl => setLevel logger lvl
       end
   end ;;;
   let plain_formatter :=
     PlainFormatter "[%(asctime)s] %(name)s %(levelname)s: %(message)s" in
   ch_id <- fresh_id ;;
   let formatter :=
     if arg_color a then
       _ColorfulFormatter__init__
         (colored "[%(asctime)s %(name)s]: " "green" [] ++ "%(message)s")%string
         (arg_name a) None
     else plain_formatter in
   let ch := {| h_id := ch_id; h_stream := Stdout; h_level := DEBUG;
                h_formatter := formatter |} in
   addHandler logger ch ;;;
   match arg_output_file a with
   | Some output_file =>
       if can_open output_file then
         fh_id <- fresh_id ;;
         addHandler logger {| h_id := fh_id; h_stream := FileStream output_file;
                              h_level := NOTSET; h_formatter := formatter |}
       else lraise (OSError output_file)
   | None => lret tt
   end ;;;
   if arg_use_accelerate a then
     id <- fresh_id ;;
     lret (MultiProcessAdapter id logger)
   else lret (TheLogger logger))%logger.

(** [functools.lru_cache()]: [maxsize] is 128; a hit returns the stored
    object and makes its entry the most recent; a miss runs the function
    and, when it returns, stores the result, dropping the least recent
    entry of a full cache.  A call that raises stores nothing. *)
Definition maxsize : nat := 128.

Fixpoint cache_get (k : Call) (c : list (Call * Returned)) : option Returned :=
  match c with
  | [] => None
  | (k', v) :: c' => if decide (k = k') then Some v else cache_get k c'
  end.

Definition cache_remove (k : Call) (c : list (Call * Returned))
  : list (Call * Returned) :=
  filter (fun kv => kv.1 <> k) c.

Definition with_cache (st : State) (c : list (Call * Returned)) : State :=
  {| loggerDict := loggerDict st;
     placeholders := placeholders st; parent := parent st;
     next_id := next_id st; cache := c |}.

Definition lru_cache (f : Call -> LM Returned) (c : Call) : LM Returned :=
  fun st =>
    match cache_get c (cache st) with
    | Some v => (inr v, with_cache st ((c, v) :: cache_remove c (cache st)))
    | None =>
        match f c st with
        | (inl e, st') => (inl e, st')
        | (inr v, st') => (inr v, with_cache st' (take maxsize ((c, v) :: cache st')))
        end
    end.

(** [setup_logger] as a caller sees it: the cache, and behind it the
    binding of the call and the body. *)
Definition setup_logger `{Externals} : Call -> LM Returned :=
  lru_cache (fun c =>
               match bind_arguments c with
               | inl e => lraise e
               | inr a => setup_logger__wrapped__ a
               end).

(** The handlers that a call with the arguments [a] constructs when it
    runs to its end, the first of them with the identity [n]. *)
Definition new_handlers `{Externals} (a : Args) (n : nat) : list Handler :=
  let formatter :=
    if arg_color a then
      _ColorfulFormatter__init__
        (colored "[%(asctime)s %(name)s]: " "green" [] ++ "%(message)s")%string
        (arg_name a) None
    else PlainFormatter "[%(asctime)s] %(name)s %(levelname)s: %(message)s" in
  {| h_id := n; h_stream := Stdout; h_level := DEBUG; h_formatter := formatter |}
  :: match arg_output_file a with
     | Some output_file =>
         [{| h_id := S n; h_stream := FileStream output_file;
             h_level := NOTSET; h_formatter := formatter |}]
     | None => []
     end.

(** The handlers of the logger registered under [key]. *)
Definition handlers_of (st : State) (key : string) : list Handler :=
  match loggerDict st !! key with
  | Some lg => handlers lg
  | None => []
  end.

(** The handlers that a record of the logger [key] goes through in
    [Logger.callHandlers]: the logger's own, then its parent's, and so on
    up to the root logger.  Nothing in the file sets [propagate] to false.
    The chain of parents is not longer than [fuel]. *)
Fixpoint handler_chain (fuel : nat) (st : State) (key : string) : list Handler :=
  handlers_of st key
  ++ match fuel with
     | O => []
     | S fuel' =>
         match parent st !! key with
         | Some p => handler_chain fuel' st p
         | None => []
         end
     end.

(** *** Vocabulary for the properties of the logger *)

(** Whether [old] occurs in [s]. *)
Fixpoint occurs (old s : string) : bool :=
  match s with
  | EmptyString => String.prefix old EmptyString
  | String _ s' => String.prefix old s || occurs old s'
  end.

(** Every handler of every logger was created before the next identity to
    be handed out, and no logger holds two handlers of one identity. *)
Definition identities_fresh (st : State) : Prop :=
  forall key,
    Forall (fun h => (h_id h < next_id st)%nat) (handlers_of st key)
    /\ NoDup (map h_id (handlers_of st key)).

(** A cache within its size, each call in it once. *)
Definition cache_sound (l : list (Call * Returned)) : Prop :=
  (length l <= maxsize)%nat /\ NoDup (map fst l).

(** *** Proof steps for the body of [setup_logger] *)

(** Unfold the body down to the state it threads. *)
Ltac run_body :=
  unfold setup_logger__wrapped__, lbind, getLogger, setLevel, fresh_id, addHandler,
    lret, lraise.

(** One case for each way through the body: the level, the output file,
    the adapter. *)
Ltac body_cases a :=
  destruct (arg_log_level a) as [?log_level|];
  [destruct (_checkLevel (upper log_level)) as [?e|?lvl]|];
  (destruct (arg_output_file a) as [?output_file|];
   [destruct (can_open output_file)|]);
  destruct (arg_use_accelerate a).

End Logger.

(** ** train_ar.py *)

Module Train.

(** The fields of the configuration tree that [main] reads. *)
Record Config : Type := {
  enable_tf32 : bool;                   (* training.enable_tf32 *)
  output_dir : string;                  (* experiment.output_dir *)
  experiment_name : string;             (* experiment.name *)
  enable_wandb : bool;                  (* training.enable_wandb *)
  mixed_precision : string;             (* training.mixed_precision *)
  seed : option Z;                      (* training.seed *)
  pretokenization : string;             (* dataset.params.get("pretokenization", "") *)
  use_ema : bool;                       (* training.use_ema *)
  per_gpu_batch_size : Z;               (* training.per_gpu_batch_size *)
  gradient_accumulation_steps : Z;      (* training.gradient_accumulation_steps *)
  max_train_examples : Z;               (* experiment.max_train_examples *)
  max_train_steps : Z                   (* training.max_train_steps *)
}.

(** What [main] reads from the [Accelerator] it builds. *)
Record Accelerator : Type := {
  is_main_process : bool;
  num_processes : positive;             (* at least the process itself *)
  process_index : Z
}.

(** Messages of [logger.info] and [accelerator.print]. *)
Inductive message : Type :=
| MsgSavingConfig (output_dir : string)
| MsgConfig
| MsgPreparing
| MsgRunningTraining
| MsgNumTrainingSteps (n : Z)
| MsgGradientAccumulationSteps (n : Z)
| MsgInstantaneousBatchSize (n : Z)
| MsgTotalTrainBatchSize (n : Z)
| MsgEpochStarted (current_epoch last_epoch : Z)
| MsgFinishingTraining (global_step max_steps : Z).

Section Orchestrator.

(** [P] is the type of a parameter set (model weights, EMA shadow);
    [X] is the rest of what the collaborators keep between calls
    (optimizer, scheduler, dataloader position). *)
Context {P X : Type}.

(** The objects [main] hands to its collaborators, which mutate them. *)
Record World : Type := {
  model_params : P;
  ema_params : P;
  trainer_state : X
}.

(** Everything a process does that is visible outside [main]. *)
Inductive event : Type :=
| EvSetHubDir
| EvTorchBackends (allow_tf32 : bool)
| EvMakedirs (dir : string)
| EvAccelerator (gradient_accumulation_steps : Z) (mixed_precision log_with : string)
| EvSetupLogger (call : Logger.Call)
| EvInitTrackers (name : string)
| EvLoggerInfo (m : message)
| EvSaveConfig (output_dir : string)
| EvSetSeed (s : Z)
| EvWaitForEveryone
| EvLoadTokenizer
| EvCreateModelAndLossModule
| EvCreateOptimizer
| EvCreateLrScheduler
| EvCreateDataloader
| EvPrepare (with_dataloader : bool)
| EvEmaToDevice
| EvAutoResume
| EvPrint (m : message)
| EvTrainOneEpoch (current_epoch global_step_in global_step_out : Z)
| EvSaveCheckpoint (global_step : Z)
| EvUnwrapModel
| EvEmaCopyTo
| EvSavePretrainedWeight (weights : P)
| EvEndTraining.

(** The collaborators of [utils.train_utils] and the distributed context,
    none of which is part of the listed sources.  They are parameters of
    the orchestrator. *)
Record Env : Type := {
  accelerator : Accelerator;
  (* create_model_and_loss_module, create_optimizer, create_lr_scheduler,
     create_dataloader, accelerator.prepare *)
  create_model_and_loss_module : Config -> World -> World;
  create_optimizer : Config -> World -> World;
  create_lr_scheduler : Config -> World -> World;
  create_dataloader : Config -> World -> World;
  prepare : bool -> World -> World;
  (* the checkpoint store at startup: the latest record, if any, as the
     global step it was saved at and the state it restores *)
  latest_checkpoint : option (Z * (World -> World));
  (* train_one_epoch_generator(..., global_step) *)
  train_one_epoch_generator : Config -> World -> Z -> World * Z
}.

(** *** The effect monad of [main]: state, trace and exceptions *)

Definition M (A : Type) : Type := World -> list event * World * (exn + A).

Definition ret {A} (a : A) : M A := fun w => ([], w, inr a).

Definition bind {A B} (m : M A) (f : A -> M B) : M B :=
  fun w =>
    match m w with
    | (t1, w1, inl e) => (t1, w1, inl e)
    | (t1, w1, inr a) =>
        match f a w1 with
        | (t2, w2, r) => (t1 ++ t2, w2, r)
        end
    end.

Definition emit (e : event) : M unit := fun w => ([e], w, inr tt).

Definition get : M World := fun w => ([], w, inr w).

Definition modify (f : World -> World) : M unit := fun w => ([], f w, inr tt).

Definition lift {A} (r : exn + A) : M A := fun w => ([], w, r).

Definition when (b : bool) (m : M unit) : M unit := if b then m else ret tt.

End Orchestrator.

Arguments World : clear implicits.
Arguments event : clear implicits.
Arguments Env : clear implicits.
Arguments M : clear implicits.

Declare Scope train_scope.
Delimit Scope train_scope with train.
Notation "x <- c ;; k" := (bind c (fun x => k))
  (at level 100, c at next level, right associativity) : train_scope.
Notation "c ;;; k" := (bind c (fun _ => k))
  (at level 100, right associativity) : train_scope.

(** The quantities [main] derives from the configuration (lines 98-107). *)
Record Bookkeeping : Type := {
  total_batch_size_without_accum : Z;
  num_batches : Z;
  num_update_steps_per_epoch : Z;
  num_train_epochs : Z
}.

Definition bookkeeping (config : Config) (acc : Accelerator) : exn + Bookkeeping :=
  let total := per_gpu_batch_size config * Z.pos (num_processes acc) in
  match Py.ceil_div (max_train_examples config) total with
  | inl e => inl e
  | inr batches =>
      match Py.ceil_div batches (gradient_accumulation_steps config) with
      | inl e => inl e
      | inr updates =>
          match Py.ceil_div (max_train_steps config) updates with
          | inl e => inl e
          | inr epochs =>
              inr {| total_batch_size_without_accum := total;
                     num_batches := batches;
                     num_update_steps_per_epoch := updates;
                     num_train_epochs := epochs |}
          end
      end
  end.

Section Main.

Context {P X : Type} (E : Env P X) (config : Config).

Local Open Scope train_scope.

(** Modelled from the spec: [auto_resume] of [utils/train_utils.py], which
    is not among the sources.  Without a checkpoint it answers
    [(0, 0)]; with a checkpoint saved at global step [S] it restores the
    saved state into the objects and answers
    [(S, S // num_update_steps_per_epoch)]. *)
Definition auto_resume (updates_per_epoch : Z) : M P X (Z * Z) :=
  emit EvAutoResume ;;;
  match latest_checkpoint E with
  | None => ret (0, 0)
  | Some (saved_step, restore) =>
      modify restore ;;;
      first_epoch <- lift (Py.floor_div saved_step updates_per_epoch) ;;
      ret (saved_step, first_epoch)
  end.

(** What [auto_resume] answers when the division is defined, and the
    objects it leaves. *)
Definition resumed_at (updates : Z) : Z * Z :=
  match latest_checkpoint E with
  | None => (0, 0)
  | Some (saved_step, _) => (saved_step, saved_step / updates)
  end.

Definition resumed_world (w : World P X) : World P X :=
  match latest_checkpoint E with
  | None => w
  | Some (_, restore) => restore w
  end.

(** One call of [train_one_epoch_generator], which works on the objects
    and answers the new global step. *)
Definition train_one_epoch (current_epoch global_step : Z) : M P X Z :=
  w <- get ;;
  let '(w', global_step') := train_one_epoch_generator E config w global_step in
  modify (fun _ => w') ;;;
  emit (EvTrainOneEpoch current_epoch global_step global_step') ;;;
  ret global_step'.

(** The loop of lines 124-139 over the epochs still to visit; leaving the
    recursion is the [break]. *)
Fixpoint epoch_loop (last_epoch : Z) (epochs : list Z) (global_step : Z)
  : M P X Z :=
  match epochs with
  | [] => ret global_step
  | current_epoch :: epochs' =>
      emit (EvPrint (MsgEpochStarted current_epoch last_epoch)) ;;;
      global_step <- train_one_epoch current_epoch global_step ;;
      if global_step >=? max_train_steps config then
        emit (EvPrint (MsgFinishingTraining global_step (max_train_steps config))) ;;;
        ret global_step
      else epoch_loop last_epoch epochs' global_step
  end.

(** [ema_model.copy_to(model.parameters())] *)
Definition copy_to (w : World P X) : World P X :=
  {| model_params := ema_params w; ema_params := ema_params w;
     trainer_state := trainer_state w |}.

(** [setup_logger(name="ARModel", log_level="INFO", output_file=...)] *)
Definition logger_call : Logger.Call :=
  {| Logger.positional := [];
     Logger.keywords :=
       [Logger.Name "ARModel";
        Logger.LogLevel (Some "INFO"%string);
        Logger.OutputFile
          (Some (output_dir config ++ "/log"
                 ++ pretty (process_index (accelerator E)) ++ ".txt")%string)] |}.

(** Lines 21-63: everything before the first barrier. *)
Definition startup : M P X unit :=
  let acc := accelerator E in
  emit EvSetHubDir ;;;
  emit (EvTorchBackends (enable_tf32 config)) ;;;
  emit (EvMakedirs (output_dir config)) ;;;
  let tracker := if enable_wandb config then "wandb"%string else "tensorboard"%string in
  emit (EvAccelerator (gradient_accumulation_steps config)
          (mixed_precision config) tracker) ;;;
  emit (EvSetupLogger logger_call) ;;;
  when (is_main_process acc)
    (emit (EvInitTrackers (experiment_name config)) ;;;
     emit (EvLoggerInfo (MsgSavingConfig (output_dir config))) ;;;
     emit (EvSaveConfig (output_dir config)) ;;;
     emit (EvLoggerInfo MsgConfig)) ;;;
  match seed config with
  | Some s => emit (EvSetSeed s)
  | None => ret tt
  end.

(** Lines 67-96: the tokenizer, the model, the optimizer, the scheduler
    and the dataloader are built and prepared. *)
Definition build : M P X unit :=
  emit EvLoadTokenizer ;;;
  emit EvCreateModelAndLossModule ;;;
  modify (create_model_and_loss_module E config) ;;;
  emit EvCreateOptimizer ;;;
  modify (create_optimizer E config) ;;;
  emit EvCreateLrScheduler ;;;
  modify (create_lr_scheduler E config) ;;;
  emit EvCreateDataloader ;;;
  modify (create_dataloader E config) ;;;
  emit (EvLoggerInfo MsgPreparing) ;;;
  let with_dataloader := negb (String.eqb (pretokenization config) "") in
  emit (EvPrepare with_dataloader) ;;;
  modify (prepare E with_dataloader) ;;;
  when (use_ema config) (emit EvEmaToDevice).

(** Lines 109-116: the banner. *)
Definition report : M P X unit :=
  emit (EvLoggerInfo MsgRunningTraining) ;;;
  emit (EvLoggerInfo (MsgNumTrainingSteps (max_train_steps config))) ;;;
  emit (EvLoggerInfo
          (MsgGradientAccumulationSteps (gradient_accumulation_steps config))) ;;;
  emit (EvLoggerInfo (MsgInstantaneousBatchSize (per_gpu_batch_size config))) ;;;
  emit (EvLoggerInfo
          (MsgTotalTrainBatchSize
             (per_gpu_batch_size config * Z.pos (num_processes (accelerator E))
              * gradient_accumulation_steps config))).

(** Lines 145-149: the export of the trained weights. *)
Definition final_export : M P X unit :=
  when (is_main_process (accelerator E))
    (emit EvUnwrapModel ;;;
     when (use_ema config) (emit EvEmaCopyTo ;;; modify copy_to) ;;;
     w <- get ;;
     emit (EvSavePretrainedWeight (model_params w))).

Definition main : M P X unit :=
  startup ;;;
  emit EvWaitForEveryone ;;;
  build ;;;
  b <- lift (bookkeeping config (accelerator E)) ;;
  report ;;;
  resumed <- auto_resume (num_update_steps_per_epoch b) ;;
  let '(global_step, first_epoch) := resumed in
  global_step <- epoch_loop (num_train_epochs b - 1)
                   (Py.range first_epoch (num_train_epochs b)) global_step ;;
  emit EvWaitForEveryone ;;;
  emit (EvSaveCheckpoint global_step) ;;;
  final_export ;;;
  emit EvEndTraining.

(** The trace of a block that cannot fail, started in [w]. *)
Definition trace_of {A} (m : M P X A) (w : World P X) : list (event P) := (m w).1.1.

Definition world_after {A} (m : M P X A) (w : World P X) : World P X := (m w).1.2.

(** The calls of [train_one_epoch_generator] in a trace, as
    (epoch, global step passed, global step returned). *)
Fixpoint epoch_calls (t : list (event P)) : list (Z * Z * Z) :=
  match t with
  | [] => []
  | EvTrainOneEpoch e g g' :: t' => (e, g, g') :: epoch_calls t'
  | _ :: t' => epoch_calls t'
  end.

End Main.

(** Kinds of events. *)
Definition is_barrier {P} (ev : event P) : bool :=
  match ev with EvWaitForEveryone => true | _ => false end.

(** What the epoch loop does: calls of the step-loop collaborator and the
    two [accelerator.print] lines. *)
Definition is_training {P} (ev : event P) : bool :=
  match ev with EvTrainOneEpoch _ _ _ | EvPrint _ => true | _ => false end.

Definition is_epoch_call {P} (ev : event P) : bool :=
  match ev with EvTrainOneEpoch _ _ _ => true | _ => false end.

(** Tracker initialisation and the config snapshot. *)
Definition is_init_write {P} (ev : event P) : bool :=
  match ev with EvInitTrackers _ | EvSaveConfig _ => true | _ => false end.

(** The export of the final weights and what prepares it. *)
Definition is_export {P} (ev : event P) : bool :=
  match ev with
  | EvUnwrapModel | EvEmaCopyTo | EvSavePretrainedWeight _ => true
  | _ => false
  end.

Definition is_save_weights {P} (ev : event P) : bool :=
  match ev with EvSavePretrainedWeight _ => true | _ => false end.


Definition is_save_checkpoint {P} (ev : event P) : bool :=
  match ev with EvSaveCheckpoint _ => true | _ => false end.

(** Neither a barrier, nor part of the epoch loop, nor a checkpoint save,
    nor part of the export. *)
Definition is_preparation {P} (ev : event P) : bool :=
  negb (is_barrier ev) && negb (is_training ev)
  && negb (is_save_checkpoint ev) && negb (is_export ev).

(** Everything that the code guards by [accelerator.is_main_process]. *)
Definition is_primary_only {P} (ev : event P) : bool :=
  match ev with
  | EvInitTrackers _ | EvSaveConfig _
  | EvLoggerInfo (MsgSavingConfig _) | EvLoggerInfo MsgConfig
  | EvUnwrapModel | EvEmaCopyTo | EvSavePretrainedWeight _ => true
  | _ => false
  end.

(** The same process environment with the primary flag set to [b]. *)
Definition with_is_main_process {P X} (b : bool) (E : Env P X) : Env P X :=
  {| accelerator :=
       {| is_main_process := b;
          num_processes := num_processes (accelerator E);
          process_index := process_index (accelerator E) |};
     create_model_and_loss_module := create_model_and_loss_module E;
     create_optimizer := create_optimizer E;
     create_lr_scheduler := create_lr_scheduler E;
     create_dataloader := create_dataloader E;
     prepare := prepare E;
     latest_checkpoint := latest_checkpoint E;
     train_one_epoch_generator := train_one_epoch_generator E |}.

(** The global step handed from one call of the collaborator to the next,
    starting from [g]: each call is passed what the call before it
    returned. *)
Fixpoint chained (g : Z) (calls : list (Z * Z * Z)) : Prop :=
  match calls with
  | [] => True
  | (_, passed, returned) :: calls' => passed = g /\ chained returned calls'
  end.

End Train.

(** ** Concrete runs *)

Module Scenario.

Import Train.

(** The end-to-end scenario of the specification: 1000 examples, batches
    of 10 on each of 2 processes, 5 accumulation steps; the step budget and
    the EMA switch vary. *)
Definition config (budget : Z) (ema : bool) : Config :=
  {| enable_tf32 := true;
     output_dir := "out";
     experiment_name := "alitok_ar";
     enable_wandb := false;
     mixed_precision := "bf16";
     seed := Some 42;
     pretokenization := "";
     use_ema := ema;
     per_gpu_batch_size := 10;
     gradient_accumulation_steps := 5;
     max_train_examples := 1000;
     max_train_steps := budget |}.

(** 25 examples in batches of 10 on one process, no accumulation, a budget
    of 3 updates. *)
Definition short_config : Config :=
  {| enable_tf32 := false;
     output_dir := "out";
     experiment_name := "alitok_ar";
     enable_wandb := false;
     mixed_precision := "no";
     seed := None;
     pretokenization := "";
     use_ema := false;
     per_gpu_batch_size := 10;
     gradient_accumulation_steps := 1;
     max_train_examples := 25;
     max_train_steps := 3 |}.

(** Parameter sets are numbers here: the model's count the updates applied
    to it, the EMA shadow moves by 10 for each update. *)
Definition world0 : World Z unit :=
  {| model_params := 0; ema_params := 0; trainer_state := tt |}.

(** A step loop that applies [updates] optimizer updates in an epoch and
    stops inside the epoch once the budget is reached. *)
Definition stepper (updates : Z) (cfg : Config) (w : World Z unit) (g : Z)
  : World Z unit * Z :=
  let g' := if max_train_steps cfg <=? g then g
            else Z.min (g + updates) (max_train_steps cfg) in
  ({| model_params := model_params w + (g' - g);
      ema_params := ema_params w + 10 * (g' - g);
      trainer_state := tt |}, g').

Definition restore_at (saved_step : Z) (_ : World Z unit) : World Z unit :=
  {| model_params := saved_step; ema_params := 10 * saved_step; trainer_state := tt |}.

(** A process of a job of [procs] processes whose epochs apply [updates]
    updates, started with the checkpoint [ckpt] in the store. *)
Definition env (primary : bool) (procs : positive) (updates : Z) (ckpt : option Z)
  : Env Z unit :=
  {| accelerator :=
       {| is_main_process := primary;
          num_processes := procs;
          process_index := if primary then 0 else 1 |};
     create_model_and_loss_module := fun _ _ => world0;
     create_optimizer := fun _ w => w;
     create_lr_scheduler := fun _ w => w;
     create_dataloader := fun _ w => w;
     prepare := fun _ w => w;
     latest_checkpoint :=
       match ckpt with
       | Some saved_step => Some (saved_step, restore_at saved_step)
       | None => None
       end;
     train_one_epoch_generator := stepper updates |}.

(** [termcolor.colored] as the library writes it: the text wrapped in the
    escape sequence of the colour, then in one sequence for each
    attribute, and followed by the reset sequence. *)
Definition esc : string := String (ascii_of_nat 27) "[".

Definition color_code (color : string) : string :=
  if String.eqb color "red" then "31"
  else if String.eqb color "green" then "32"
  else "0".

Definition attr_code (attr : string) : string :=
  if String.eqb attr "blink" then "5"
  else if String.eqb attr "underline" then "4"
  else "0".

Definition ansi_colored (text color : string) (attrs : list string) : string :=
  (fold_left (fun t attr => esc ++ attr_code attr ++ "m" ++ t) attrs
     (esc ++ color_code color ++ "m" ++ text)
   ++ esc ++ "0m")%string.

(** [str.upper] and [repr] on ASCII text, which is what the scenarios
    pass to them: the small letters become capitals; the text is put
    between single quotes (double quotes when it holds a single quote and
    no double one), with a backslash before a backslash and before the
    quote, and the control characters escaped.  A byte outside ASCII is
    left as it is. *)
Definition upper_ascii (c : ascii) : ascii :=
  let n := nat_of_ascii c in
  if ((97 <=? n) && (n <=? 122))%nat then ascii_of_nat (n - 32) else c.

Fixpoint str_upper (s : string) : string :=
  match s with
  | EmptyString => EmptyString
  | String c s' => String (upper_ascii c) (str_upper s')
  end.

Definition backslash : ascii := ascii_of_nat 92.

Definition double_quote : ascii := ascii_of_nat 34.

Definition hex_digit (n : nat) : ascii :=
  ascii_of_nat (if (n <? 10)%nat then 48 + n else 87 + n).

Definition repr_char (quote c : ascii) : string :=
  let n := nat_of_ascii c in
  if Ascii.eqb c backslash || Ascii.eqb c quote then String backslash (String c "")
  else if (n =? 9)%nat then String backslash "t"
  else if (n =? 10)%nat then String backslash "n"
  else if (n =? 13)%nat then String backslash "r"
  else if ((n <? 32) || (n =? 127))%nat
       then String backslash
              (String "x" (String (hex_digit (n / 16)) (String (hex_digit (n mod 16)) "")))
  else String c "".

Fixpoint repr_chars (quote : ascii) (s : string) : string :=
  match s with
  | EmptyString => EmptyString
  | String c s' => (repr_char quote c ++ repr_chars quote s')%string
  end.

Fixpoint holds (c : ascii) (s : string) : bool :=
  match s with
  | EmptyString => false
  | String c' s' => Ascii.eqb c c' || holds c s'
  end.

Definition str_repr (s : string) : string :=
  let quote := if holds "'" s && negb (holds double_quote s)
               then double_quote else "'"%char in
  String quote (repr_chars quote s ++ String quote "")%string.

(** A terminal with colours and a writable output directory. *)
#[export] Instance terminal : Logger.Externals :=
  {| Logger.colored := ansi_colored; Logger.can_open := fun _ => true;
     Logger.upper := str_upper; Logger.repr := str_repr |}.

(** The call of [main] on process 0, and the same call asking for another
    level. *)
Definition call : Logger.Call :=
  {| Logger.positional := [];
     Logger.keywords :=
       [Logger.Name "ARModel"; Logger.LogLevel (Some "INFO"%string);
        Logger.OutputFile (Some "out/log0.txt"%string)] |}.

Definition call_debug : Logger.Call :=
  {| Logger.positional := [];
     Logger.keywords :=
       [Logger.Name "ARModel"; Logger.LogLevel (Some "debug"%string);
        Logger.OutputFile (Some "out/log0.txt"%string)] |}.

(** The arguments of [call], the first two passed by position:
    [setup_logger("ARModel", "INFO", output_file="out/log0.txt")]. *)
Definition call_by_position : Logger.Call :=
  {| Logger.positional :=
       [Logger.Name "ARModel"; Logger.LogLevel (Some "INFO"%string)];
     Logger.keywords := [Logger.OutputFile (Some "out/log0.txt"%string)] |}.

(** [setup_logger(name="ARModel")]: no output file. *)
Definition call_console : Logger.Call :=
  {| Logger.positional := []; Logger.keywords := [Logger.Name "ARModel"] |}.

(** The process after the call of [main], and after the second call. *)
Definition once : Logger.State := (Logger.setup_logger call Logger.initial_state).2.

Definition twice : Logger.State := (Logger.setup_logger call_debug once).2.

(** The format and the formatter that [setup_logger] builds for [call]. *)
Definition fmt : string :=
  (ansi_colored "[%(asctime)s %(name)s]: " "green" [] ++ "%(message)s")%string.

Definition formatter : Logger.Formatter :=
  Logger._ColorfulFormatter__init__ fmt "ARModel" None.

Definition warning_record : Logger.LogRecord :=
  {| Logger.name := "ARModel";
     Logger.levelno := Logger.WARNING;
     Logger.levelname := "WARNING";
     Logger.asctime := "11/03 22:16:00";
     Logger.message := "loss is nan" |}.

(** The end-to-end scenario with an empty dataset. *)
Definition empty_config : Config :=
  {| enable_tf32 := true;
     output_dir := "out";
     experiment_name := "alitok_ar";
     enable_wandb := false;
     mixed_precision := "bf16";
     seed := Some 42;
     pretokenization := "";
     use_ema := true;
     per_gpu_batch_size := 10;
     gradient_accumulation_steps := 5;
     max_train_examples := 0;
     max_train_steps := 3 |}.

(** What the base formatter makes of [warning_record]. *)
Definition warning_log : string :=
  (ansi_colored "[11/03 22:16:00 ARModel]: " "green" [] ++ "loss is nan")%string.

(** One accumulation step, [examples] examples in batches of [batch] on
    each process, a budget of [budget] updates. *)
Definition sized_config (examples batch budget : Z) : Config :=
  {| enable_tf32 := false;
     output_dir := "out";
     experiment_name := "alitok_ar";
     enable_wandb := false;
     mixed_precision := "no";
     seed := None;
     pretokenization := "";
     use_ema := false;
     per_gpu_batch_size := batch;
     gradient_accumulation_steps := 1;
     max_train_examples := examples;
     max_train_steps := budget |}.

(** A process that cannot open its log file. *)
Definition read_only : Logger.Externals :=
  {| Logger.colored := ansi_colored; Logger.can_open := fun _ => false;
     Logger.upper := str_upper; Logger.repr := str_repr |}.


(** [setup_logger(log_level="INFO", name="ARModel", output_file="out/log0.txt")]:
    the keywords of [call] in another order. *)
Definition call_reordered : Logger.Call :=
  {| Logger.positional := [];
     Logger.keywords :=
       [Logger.LogLevel (Some "INFO"%string); Logger.Name "ARModel";
        Logger.OutputFile (Some "out/log0.txt"%string)] |}.

(** [setup_logger(str(i), use_accelerate=False)], and a process that has made
    this call for each [i] below 128, which fills the cache. *)
Definition numbered_call (i : nat) : Logger.Call :=
  {| Logger.positional := [Logger.Name (pretty i)];
     Logger.keywords := [Logger.UseAccelerate false] |}.

Definition busy : Logger.State :=
  fold_left (fun st i => (Logger.setup_logger (numbered_call i) st).2)
    (seq 0 128) Logger.initial_state.

(** A record of a child logger of [ARModel]. *)
Definition child_record : Logger.LogRecord :=
  {| Logger.name := "ARModel.data";
     Logger.levelno := Logger.INFO;
     Logger.levelname := "INFO";
     Logger.asctime := "11/03 22:16:00";
     Logger.message := "epoch done" |}.

End Scenario.

(** * Properties *)

Module PyFacts.

Import Py.












Lemma ceil_div_inr (x y n : Z) : ceil_div x y = inr n -> y <> 0.
Proof.
  unfold ceil_div, true_divide.
  destruct (Z.eqb_spec y 0) as [->|Hy]; [discriminate | intros _; exact Hy].
Qed.


Example ceil_div_examples :
  ceil_div 7 2 = inr 4
  /\ ceil_div (-7) 2 = inr (-3)
  /\ ceil_div 1000 20 = inr 50
  /\ ceil_div 3 10 = inr 1
  /\ ceil_div (3 * 2 ^ 52 + 1) (2 ^ 52) = inr 3
  /\ ceil_div (10 ^ 400) 2 = inl OverflowError
  /\ ceil_div 1000 (10 ^ 400) = inr 0.
Proof. vm_compute. repeat split. Qed.

Lemma range_nil (a b : Z) : b <= a -> Py.range a b = [].
Proof.
  intros H. unfold Py.range.
  replace (Z.to_nat (b - a)) with 0%nat by lia. reflexivity.
Qed.


Lemma range_app (a b c : Z) :
  a <= b -> b <= c -> Py.range a c = Py.range a b ++ Py.range b c.
Proof.
  intros Hab Hbc. unfold Py.range.
  replace (Z.to_nat (c - a)) with (Z.to_nat (b - a) + Z.to_nat (c - b))%nat by lia.
  rewrite seq_app, map_app. f_equal.
  replace (0 + Z.to_nat (b - a))%nat with (Z.to_nat (b - a) + 0)%nat by lia.
  rewrite <- fmap_add_seq.
  change (Nat.add (Z.to_nat (b - a)) <$> seq 0 (Z.to_nat (c - b)))
    with (map (Nat.add (Z.to_nat (b - a))) (seq 0 (Z.to_nat (c - b)))).
  rewrite map_map. apply map_ext. intros i. lia.
Qed.

End PyFacts.

Module TrainFacts.

Import Train.

Section EpochLoop.

Context {P X : Type} (E : Env P X) (config : Config).

(** One turn of the loop, unfolded. *)
Lemma epoch_loop_cons (last_epoch e : Z) (epochs : list Z) (g : Z) (w : World P X) :
  epoch_loop E config last_epoch (e :: epochs) g w =
    let '(w1, g1) := train_one_epoch_generator E config w g in
    if g1 >=? max_train_steps config then
      ([EvPrint (MsgEpochStarted e last_epoch); EvTrainOneEpoch e g g1;
        EvPrint (MsgFinishingTraining g1 (max_train_steps config))], w1, inr g1)
    else
      let '(t, w2, r) := epoch_loop E config last_epoch epochs g1 w1 in
      (EvPrint (MsgEpochStarted e last_epoch) :: EvTrainOneEpoch e g g1 :: t, w2, r).
Proof.
  cbn [epoch_loop]. unfold train_one_epoch.
  unfold bind at 1 2 3. unfold emit at 1, get. cbn beta iota.
  destruct (train_one_epoch_generator E config w g) as [w1 g1].
  unfold bind, emit, get, modify, ret. cbn.
  destruct (g1 >=? max_train_steps config); cbn; [reflexivity|].
  destruct (epoch_loop E config last_epoch epochs g1 w1) as [[t w2] r].
  reflexivity.
Qed.

Lemma geb_false (a b : Z) : (a >=? b) = false -> a < b.
Proof. rewrite Z.geb_leb. intros H. apply Z.leb_gt in H. exact H. Qed.

Lemma geb_true (a b : Z) : (a >=? b) = true -> b <= a.
Proof. rewrite Z.geb_leb. intros H. apply Z.leb_le in H. exact H. Qed.

(** The loop over any list of epochs: it never fails, and it is left
    either by the [break] after the first call that reaches the budget
    (then epochs appended to the list make no difference) or at the end
    of the list with every call below the budget. *)
Lemma epoch_loop_outcome (last_epoch : Z) (epochs : list Z) :
  forall (g : Z) (w : World P X),
  exists t w' g',
    epoch_loop E config last_epoch epochs g w = (t, w', inr g') /\
    ((exists e gi,
         last (epoch_calls t) = Some (e, gi, g') /\
         max_train_steps config <= g' /\
         Forall (fun c => c.2 < max_train_steps config) (removelast (epoch_calls t)) /\
         forall more,
           epoch_loop E config last_epoch (epochs ++ more) g w = (t, w', inr g'))
     \/
     (map (fun c => c.1.1) (epoch_calls t) = epochs /\
      Forall (fun c => c.2 < max_train_steps config) (epoch_calls t) /\
      g' = default g (snd <$> last (epoch_calls t)))).
Proof.
  induction epochs as [|e epochs IH]; intros g w.
  - exists [], w, g. split; [reflexivity|]. right. repeat split. constructor.
  - destruct (train_one_epoch_generator E config w g) as [w1 g1] eqn:Hstep.
    destruct (g1 >=? max_train_steps config) eqn:Hcmp.
    + eexists _, w1, g1. split.
      { rewrite epoch_loop_cons, Hstep, Hcmp. reflexivity. }
      left. exists e, g. split; [reflexivity|].
      split; [apply geb_true, Hcmp|].
      split; [constructor|].
      intros more. rewrite <- app_comm_cons, epoch_loop_cons, Hstep, Hcmp. reflexivity.
    + destruct (IH g1 w1) as (t & w2 & g2 & Hrun & Hcases).
      eexists _, w2, g2. split.
      { rewrite epoch_loop_cons, Hstep, Hcmp, Hrun. reflexivity. }
      apply geb_false in Hcmp.
      destruct Hcases as [(e' & gi & Hlast & Hbudget & Hbefore & Hmore)
                         | (Hepochs & Hbelow & Hfinal)].
      * left. exists e', gi. cbn [epoch_calls]. repeat split.
        -- rewrite last_cons, Hlast. reflexivity.
        -- exact Hbudget.
        -- destruct (epoch_calls t) as [|c cs] eqn:Hc; [discriminate|].
           change (removelast ((e, g, g1) :: c :: cs))
             with ((e, g, g1) :: removelast (c :: cs)).
           constructor; [exact Hcmp | exact Hbefore].
        -- intros more.
           rewrite <- app_comm_cons, epoch_loop_cons, Hstep.
           destruct (g1 >=? max_train_steps config) eqn:Hcmp'.
           { apply geb_true in Hcmp'. lia. }
           rewrite Hmore. reflexivity.
      * right. cbn [epoch_calls map]. repeat split.
        -- cbn. rewrite Hepochs. reflexivity.
        -- constructor; [exact Hcmp | exact Hbelow].
        -- rewrite last_cons. rewrite Hfinal.
           destruct (last (epoch_calls t)); reflexivity.
Qed.

(** The loop emits nothing but its two prints and the collaborator
    calls. *)
Lemma epoch_loop_events (last_epoch : Z) (epochs : list Z) :
  forall (g : Z) (w : World P X),
    Forall (fun ev => is_training ev = true)
           (epoch_loop E config last_epoch epochs g w).1.1.
Proof.
  induction epochs as [|e epochs IH]; intros g w.
  - constructor.
  - rewrite epoch_loop_cons.
    destruct (train_one_epoch_generator E config w g) as [w1 g1].
    destruct (g1 >=? max_train_steps config).
    + repeat constructor.
    + specialize (IH g1 w1).
      destruct (epoch_loop E config last_epoch epochs g1 w1) as [[t w2] r].
      repeat constructor. exact IH.
Qed.

(** *** The blocks of [main] *)

Lemma bind_inr {A B} (m : M P X A) (f : A -> M P X B) w t1 w1 a :
  m w = (t1, w1, inr a) ->
  bind m f w = (let '(t2, w2, r) := f a w1 in (t1 ++ t2, w2, r)).
Proof. intros H. unfold bind. rewrite H. reflexivity. Qed.

Lemma startup_run (w : World P X) :
  startup E config w = (trace_of (startup E config) w, w, inr tt).
Proof.
  unfold trace_of, startup.
  destruct (is_main_process (accelerator E)), (seed config); reflexivity.
Qed.

Lemma startup_trace_any (w w' : World P X) :
  trace_of (startup E config) w = trace_of (startup E config) w'.
Proof.
  unfold trace_of, startup.
  destruct (is_main_process (accelerator E)), (seed config); reflexivity.
Qed.

Lemma build_run (w : World P X) :
  build E config w =
    (trace_of (build E config) w, world_after (build E config) w, inr tt).
Proof.
  unfold trace_of, world_after, build.
  destruct (use_ema config); reflexivity.
Qed.

Lemma report_run (w : World P X) :
  report E config w = (trace_of (report E config) w, w, inr tt).
Proof. reflexivity. Qed.

Lemma final_export_run (w : World P X) :
  final_export E config w =
    (trace_of (final_export E config) w,
     world_after (final_export E config) w, inr tt).
Proof.
  unfold trace_of, world_after, final_export.
  destruct (is_main_process (accelerator E)), (use_ema config); reflexivity.
Qed.

Lemma auto_resume_run (updates : Z) (w : World P X) :
  updates <> 0 ->
  auto_resume E updates w =
    match latest_checkpoint E with
    | None => ([EvAutoResume], w, inr (0, 0))
    | Some (saved_step, restore) =>
        ([EvAutoResume], restore w, inr (saved_step, saved_step / updates))
    end.
Proof.
  intros Hu. unfold auto_resume.
  destruct (latest_checkpoint E) as [[saved_step restore]|]; [|reflexivity].
  unfold bind, emit, modify, lift, ret, Py.floor_div.
  destruct (Z.eqb_spec updates 0); [contradiction|]. reflexivity.
Qed.

Lemma bookkeeping_updates_nonzero (b : Bookkeeping) :
  bookkeeping config (accelerator E) = inr b ->
  num_update_steps_per_epoch b <> 0.
Proof.
  unfold bookkeeping.
  destruct (Py.ceil_div (max_train_examples config) _) as [|batches]; [discriminate|].
  destruct (Py.ceil_div batches _) as [|updates]; [discriminate|].
  destruct (Py.ceil_div (max_train_steps config) updates) as [|epochs] eqn:He;
    [discriminate|].
  intros [= <-]. cbn. exact (PyFacts.ceil_div_inr _ _ _ He).
Qed.

(** A run whose bookkeeping succeeds goes through every block. *)
Lemma main_run (b : Bookkeeping) (w0 : World P X) :
  bookkeeping config (accelerator E) = inr b ->
  forall t_loop w_loop g',
    epoch_loop E config (num_train_epochs b - 1)
      (Py.range (resumed_at E (num_update_steps_per_epoch b)).2 (num_train_epochs b))
      (resumed_at E (num_update_steps_per_epoch b)).1
      (resumed_world E (world_after (build E config) w0))
    = (t_loop, w_loop, inr g') ->
    main E config w0 =
      (trace_of (startup E config) w0
       ++ EvWaitForEveryone
       :: trace_of (build E config) w0
       ++ trace_of (report E config) w0
       ++ EvAutoResume
       :: t_loop
       ++ EvWaitForEveryone
       :: EvSaveCheckpoint g'
       :: trace_of (final_export E config) w_loop ++ [EvEndTraining],
       world_after (final_export E config) w_loop, inr tt).
Proof.
  intros Hb t_loop w_loop g' Hloop.
  pose proof (bookkeeping_updates_nonzero b Hb) as Hu.
  unfold main, bind.
  rewrite startup_run. cbn beta iota. unfold emit at 1. cbn beta iota.
  rewrite build_run. unfold lift at 1. rewrite Hb. rewrite report_run.
  rewrite auto_resume_run by exact Hu.
  unfold resumed_at, resumed_world in Hloop.
  destruct (latest_checkpoint E) as [[saved_step restore]|];
    cbn [fst snd] in Hloop; cbn beta iota; rewrite Hloop;
    unfold emit; cbn beta iota; rewrite final_export_run;
    cbn [app]; reflexivity.
Qed.

Lemma epoch_calls_app (t1 t2 : list (event P)) :
  epoch_calls (t1 ++ t2) = epoch_calls t1 ++ epoch_calls t2.
Proof.
  induction t1 as [|ev t1 IH]; [reflexivity|].
  destruct ev; cbn; rewrite ?IH; reflexivity.
Qed.

Lemma epoch_calls_none (t : list (event P)) :
  Forall (fun ev => is_epoch_call ev = false) t -> epoch_calls t = [].
Proof.
  induction 1 as [|ev t Hev _ IH]; [reflexivity|].
  destruct ev; cbn in *; try discriminate; exact IH.
Qed.

Lemma startup_preparation (w : World P X) :
  Forall (fun ev => is_preparation ev = true) (trace_of (startup E config) w).
Proof.
  unfold trace_of, startup.
  destruct (is_main_process (accelerator E)), (seed config);
    cbn; repeat constructor.
Qed.

Lemma build_preparation (w : World P X) :
  Forall (fun ev => is_preparation ev = true) (trace_of (build E config) w).
Proof.
  unfold trace_of, build. destruct (use_ema config); cbn; repeat constructor.
Qed.

Lemma report_preparation (w : World P X) :
  Forall (fun ev => is_preparation ev = true) (trace_of (report E config) w).
Proof. unfold trace_of. cbn. repeat constructor. Qed.

Lemma final_export_events (w : World P X) :
  Forall (fun ev => is_export ev = true) (trace_of (final_export E config) w).
Proof.
  unfold trace_of, final_export.
  destruct (is_main_process (accelerator E)), (use_ema config);
    cbn; repeat constructor.
Qed.

Lemma final_export_trace (w : World P X) :
  trace_of (final_export E config) w =
    if is_main_process (accelerator E) then
      if use_ema config
      then [EvUnwrapModel; EvEmaCopyTo; EvSavePretrainedWeight (ema_params w)]
      else [EvUnwrapModel; EvSavePretrainedWeight (model_params w)]
    else [].
Proof.
  unfold trace_of, final_export.
  destruct (is_main_process (accelerator E)), (use_ema config); reflexivity.
Qed.


Lemma preparation_no_epoch_call (t : list (event P)) :
  Forall (fun ev => is_preparation ev = true) t ->
  Forall (fun ev => is_epoch_call ev = false) t.
Proof.
  apply List.Forall_impl. intros ev. destruct ev; cbn; congruence.
Qed.

Lemma export_no_epoch_call (t : list (event P)) :
  Forall (fun ev => is_export ev = true) t ->
  Forall (fun ev => is_epoch_call ev = false) t.
Proof.
  apply List.Forall_impl. intros ev. destruct ev; cbn; congruence.
Qed.

(** A run whose bookkeeping succeeds, with the outcome of its loop. *)
Lemma main_shape (b : Bookkeeping) (w0 : World P X) :
  bookkeeping config (accelerator E) = inr b ->
  exists t_loop w_loop g',
    epoch_loop E config (num_train_epochs b - 1)
      (Py.range (resumed_at E (num_update_steps_per_epoch b)).2 (num_train_epochs b))
      (resumed_at E (num_update_steps_per_epoch b)).1
      (resumed_world E (world_after (build E config) w0))
    = (t_loop, w_loop, inr g') /\
    main E config w0 =
      (trace_of (startup E config) w0
       ++ EvWaitForEveryone
       :: trace_of (build E config) w0
       ++ trace_of (report E config) w0
       ++ EvAutoResume
       :: t_loop
       ++ EvWaitForEveryone
       :: EvSaveCheckpoint g'
       :: trace_of (final_export E config) w_loop ++ [EvEndTraining],
       world_after (final_export E config) w_loop, inr tt).
Proof.
  intros Hb.
  destruct (epoch_loop_outcome (num_train_epochs b - 1)
              (Py.range (resumed_at E (num_update_steps_per_epoch b)).2
                 (num_train_epochs b))
              (resumed_at E (num_update_steps_per_epoch b)).1
              (resumed_world E (world_after (build E config) w0)))
    as (t_loop & w_loop & g' & Hloop & _).
  exists t_loop, w_loop, g'. split; [exact Hloop|].
  exact (main_run b w0 Hb t_loop w_loop g' Hloop).
Qed.

(** The collaborator calls of a run are those of its loop. *)
Lemma main_epoch_calls (w0 : World P X) (t_loop : list (event P))
    (w_loop : World P X) (g' : Z) :
  epoch_calls
    (trace_of (startup E config) w0
     ++ EvWaitForEveryone
     :: trace_of (build E config) w0
     ++ trace_of (report E config) w0
     ++ EvAutoResume
     :: t_loop
     ++ EvWaitForEveryone
     :: EvSaveCheckpoint g'
     :: trace_of (final_export E config) w_loop ++ [EvEndTraining])
  = epoch_calls t_loop.
Proof.
  rewrite epoch_calls_app.
  rewrite (epoch_calls_none _ (preparation_no_epoch_call _ (startup_preparation w0))).
  cbn [app epoch_calls].
  rewrite epoch_calls_app.
  rewrite (epoch_calls_none _ (preparation_no_epoch_call _ (build_preparation w0))).
  cbn [app].
  rewrite epoch_calls_app.
  rewrite (epoch_calls_none _ (preparation_no_epoch_call _ (report_preparation w0))).
  cbn [app epoch_calls].
  rewrite epoch_calls_app. cbn [epoch_calls].
  rewrite epoch_calls_app.
  rewrite (epoch_calls_none _ (export_no_epoch_call _ (final_export_events w_loop))).
  cbn. apply app_nil_r.
Qed.




(** C1 (amended).  After each epoch the loop compares the global step
    that the collaborator returned with [max_train_steps] and is left at
    once by the first epoch that reaches the budget, whatever the number
    of epochs is beyond that epoch; when no epoch of
    [range(first_epoch, num_train_epochs)] reaches the budget, the loop
    ends on exhausting that range, every call having stayed below the
    budget. *)
Theorem epoch_loop_budget_exit (last_epoch first num g : Z) (w : World P X) :
  exists t w' g',
    epoch_loop E config last_epoch (Py.range first num) g w = (t, w', inr g') /\
    ((exists e gi,
         last (epoch_calls t) = Some (e, gi, g') /\
         max_train_steps config <= g' /\
         Forall (fun c => c.2 < max_train_steps config) (removelast (epoch_calls t)) /\
         forall num', num <= num' ->
           epoch_loop E config last_epoch (Py.range first num') g w = (t, w', inr g'))
     \/
     (map (fun c => c.1.1) (epoch_calls t) = Py.range first num /\
      Forall (fun c => c.2 < max_train_steps config) (epoch_calls t) /\
      g' = default g (snd <$> last (epoch_calls t)))).
Proof.
  destruct (epoch_loop_outcome last_epoch (Py.range first num) g w)
    as (t & w' & g' & Hrun & Hcases).
  exists t, w', g'. split; [exact Hrun|].
  destruct Hcases as [(e & gi & Hlast & Hbudget & Hbefore & Hmore) | Hend];
    [left | right; exact Hend].
  exists e, gi. repeat split; try assumption.
  intros num' Hnum.
  destruct (Z_lt_le_dec first num) as [Hlt|Hge].
  - rewrite (PyFacts.range_app first num num') by lia. apply Hmore.
  - rewrite PyFacts.range_nil in Hrun by lia. cbn in Hrun.
    injection Hrun as <- _ _. discriminate Hlast.
Qed.

End EpochLoop.

Section Claims.

Context {P X : Type} (E : Env P X) (config : Config).

Lemma filter_none {A} (f : A -> bool) (l : list A) :
  Forall (fun x => f x = false) l -> List.filter f l = [].
Proof.
  induction 1 as [|x l Hx _ IH]; [reflexivity|]. cbn. rewrite Hx. exact IH.
Qed.

Lemma filter_all {A} (f : A -> bool) (l : list A) :
  Forall (fun x => f x = true) l -> List.filter f l = l.
Proof.
  induction 1 as [|x l Hx _ IH]; [reflexivity|]. cbn. rewrite Hx, IH. reflexivity.
Qed.

Lemma training_not (f : event P -> bool) (t : list (event P)) :
  (forall ev, is_training ev = true -> f ev = false) ->
  Forall (fun ev => is_training ev = true) t ->
  Forall (fun ev => f ev = false) t.
Proof. intros Hf. apply List.Forall_impl. exact Hf. Qed.

Lemma with_is_main_process_loop (flag : bool) (last_epoch : Z) (epochs : list Z) :
  forall g w,
    epoch_loop (with_is_main_process flag E) config last_epoch epochs g w
    = epoch_loop E config last_epoch epochs g w.
Proof.
  induction epochs as [|e epochs IH]; intros g w; [reflexivity|].
  rewrite !epoch_loop_cons. cbn [with_is_main_process train_one_epoch_generator].
  destruct (train_one_epoch_generator E config w g) as [w1 g1].
  rewrite IH. reflexivity.
Qed.


(** C5.  In a run that completes, a primary process initialises the
    trackers and writes the config snapshot, each once, and writes the
    final weights once; any other process performs none of the guarded
    actions.  Apart from the guarded actions the two kinds of process do
    the same: the trace of a process that is not primary is that of the
    primary one with the guarded actions left out. *)
Theorem primary_only_writes (b : Bookkeeping) (w0 : World P X) :
  bookkeeping config (accelerator E) = inr b ->
  exists t w,
    main E config w0 = (t, w, inr tt) /\
    (if is_main_process (accelerator E)
     then List.filter is_init_write t
          = [EvInitTrackers (experiment_name config); EvSaveConfig (output_dir config)]
          /\ exists weights,
               List.filter is_save_weights t = [EvSavePretrainedWeight weights]
     else List.filter is_primary_only t = []) /\
    trace_of (main (with_is_main_process false E) config) w0
    = List.filter (fun ev => negb (is_primary_only ev))
        (trace_of (main (with_is_main_process true E) config) w0).
Proof.
  intros Hb.
  destruct (main_shape E config b w0 Hb) as (t_loop & w_loop & g' & Hloop & Hmain).
  pose proof (epoch_loop_events E config (num_train_epochs b - 1)
                (Py.range (resumed_at E (num_update_steps_per_epoch b)).2
                   (num_train_epochs b))
                (resumed_at E (num_update_steps_per_epoch b)).1
                (resumed_world E (world_after (build E config) w0))) as Hev.
  rewrite Hloop in Hev. cbn [fst] in Hev.
  eexists _, _. split; [exact Hmain|]. split.
  - unfold trace_of, startup, build, report, final_export.
    destruct (is_main_process (accelerator E)), (seed config), (use_ema config);
      cbn; rewrite ?List.filter_app;
      rewrite ?(filter_none is_init_write t_loop),
              ?(filter_none is_save_weights t_loop),
              ?(filter_none is_primary_only t_loop);
      cbn; eauto;
      (eapply training_not; [|exact Hev]); intros ev; destruct ev; cbn; congruence.
  - unfold trace_of.
    assert (forall flag, bookkeeping config (accelerator (with_is_main_process flag E))
                         = inr b) as Hb' by (intros flag; exact Hb).
    rewrite (main_run (with_is_main_process false E) config b w0 (Hb' false)
               t_loop w_loop g').
    2:{ rewrite with_is_main_process_loop. exact Hloop. }
    rewrite (main_run (with_is_main_process true E) config b w0 (Hb' true)
               t_loop w_loop g').
    2:{ rewrite with_is_main_process_loop. exact Hloop. }
    unfold trace_of, startup, build, report, final_export.
    cbn [fst snd with_is_main_process accelerator is_main_process].
    destruct (seed config), (use_ema config);
      cbn; rewrite ?List.filter_app;
      rewrite (filter_all (fun ev => negb (is_primary_only ev)) t_loop);
      try reflexivity;
      (eapply List.Forall_impl; [|exact Hev]); intros ev; destruct ev; cbn; congruence.
Qed.



(** C10.  When [auto_resume] answers a global step [S] whose first epoch
    is not below the number of epochs, the loop body does not run: the
    run performs no epoch and prints nothing, passes the second barrier
    right after [auto_resume], saves the final checkpoint at [S], and a
    primary process still writes the final weights. *)
Theorem resume_past_last_epoch (b : Bookkeeping) (w0 : World P X)
    (S : Z) (restore : World P X -> World P X) :
  bookkeeping config (accelerator E) = inr b ->
  latest_checkpoint E = Some (S, restore) ->
  num_train_epochs b <= S / num_update_steps_per_epoch b ->
  exists earlier export w,
    main E config w0 =
      (earlier ++ [EvAutoResume; EvWaitForEveryone; EvSaveCheckpoint S]
       ++ export ++ [EvEndTraining], w, inr tt) /\
    Forall (fun ev => is_training ev = false) earlier /\
    Forall (fun ev => is_export ev = true) export /\
    (if is_main_process (accelerator E)
     then exists weights,
            List.filter is_save_weights export = [EvSavePretrainedWeight weights]
     else export = []).
Proof.
  intros Hb Hsome Hpast.
  pose proof (main_run E config b w0 Hb []
                (resumed_world E (world_after (build E config) w0)) S) as Hmain.
  unfold resumed_at in Hmain. rewrite Hsome in Hmain. cbn [fst snd] in Hmain.
  rewrite PyFacts.range_nil in Hmain by exact Hpast.
  specialize (Hmain eq_refl).
  exists (trace_of (startup E config) w0 ++ EvWaitForEveryone
          :: trace_of (build E config) w0 ++ trace_of (report E config) w0),
         (trace_of (final_export E config)
            (resumed_world E (world_after (build E config) w0))),
         (world_after (final_export E config)
            (resumed_world E (world_after (build E config) w0))).
  split.
  { rewrite Hmain. rewrite <- !app_assoc. cbn. rewrite <- !app_assoc. reflexivity. }
  assert (forall t : list (event P),
             Forall (fun ev => is_preparation ev = true) t ->
             Forall (fun ev => is_training ev = false) t) as Hprep.
  { intros t. apply List.Forall_impl.
    intros ev. destruct ev; cbn; congruence. }
  split.
  { apply Forall_app. split; [apply Hprep, startup_preparation|].
    constructor; [reflexivity|].
    apply Forall_app. split; apply Hprep;
      [apply build_preparation | apply report_preparation]. }
  split; [apply final_export_events|].
  rewrite final_export_trace.
  destruct (is_main_process (accelerator E)), (use_ema config); cbn; eauto.
Qed.

End Claims.



Example bookkeeping_scenario :
  bookkeeping (Scenario.config 3 true) (accelerator (Scenario.env true 2 10 None))
  = inr {| total_batch_size_without_accum := 20; num_batches := 50;
           num_update_steps_per_epoch := 10; num_train_epochs := 1 |}.
Proof. reflexivity. Qed.


Example resume_scenario :
  epoch_calls
    (trace_of (main (Scenario.env true 2 10 (Some 13)) (Scenario.config 25 true))
       Scenario.world0)
  = [(1, 13, 23); (2, 23, 25)].
Proof. reflexivity. Qed.

Lemma primary_only_writes_witness :
  exists t w,
    main (Scenario.env true 2 10 None) (Scenario.config 3 true) Scenario.world0
    = (t, w, inr tt) /\
    (List.filter is_init_write t = [EvInitTrackers "alitok_ar"; EvSaveConfig "out"]
     /\ exists weights, List.filter is_save_weights t = [EvSavePretrainedWeight weights]) /\
    trace_of (main (with_is_main_process false (Scenario.env true 2 10 None))
                (Scenario.config 3 true)) Scenario.world0
    = List.filter (fun ev => negb (is_primary_only ev))
        (trace_of (main (with_is_main_process true (Scenario.env true 2 10 None))
                     (Scenario.config 3 true)) Scenario.world0).
Proof.
  apply (primary_only_writes (Scenario.env true 2 10 None) (Scenario.config 3 true)
           {| total_batch_size_without_accum := 20; num_batches := 50;
              num_update_steps_per_epoch := 10; num_train_epochs := 1 |}
           Scenario.world0).
  reflexivity.
Defined.



(** The weights a primary process exports after three updates: the EMA
    shadow's when [use_ema] is set, the model's own otherwise. *)
Example export_scenario :
  List.filter is_export
    (trace_of (main (Scenario.env true 2 10 None) (Scenario.config 3 true))
       Scenario.world0)
  = [EvUnwrapModel; EvEmaCopyTo; EvSavePretrainedWeight 30]
  /\ List.filter is_export
       (trace_of (main (Scenario.env true 2 10 None) (Scenario.config 3 false))
          Scenario.world0)
     = [EvUnwrapModel; EvSavePretrainedWeight 3]
  /\ List.filter is_export
       (trace_of (main (Scenario.env false 2 10 None) (Scenario.config 3 true))
          Scenario.world0)
     = [].
Proof. repeat split. Qed.

(** A run restarted with its checkpoint at step 10 when the budget of 10
    updates, one epoch, was already reached. *)
Lemma resume_past_last_epoch_witness :
  exists earlier export w,
    main (Scenario.env true 2 10 (Some 10)) (Scenario.config 10 true) Scenario.world0 =
      (earlier ++ [EvAutoResume; EvWaitForEveryone; EvSaveCheckpoint 10]
       ++ export ++ [EvEndTraining], w, inr tt) /\
    Forall (fun ev => is_training ev = false) earlier /\
    Forall (fun ev => is_export ev = true) export /\
    exists weights,
      List.filter is_save_weights export = [EvSavePretrainedWeight weights].
Proof.
  apply (resume_past_last_epoch (Scenario.env true 2 10 (Some 10)) (Scenario.config 10 true)
           {| total_batch_size_without_accum := 20; num_batches := 50;
              num_update_steps_per_epoch := 10; num_train_epochs := 1 |}
           Scenario.world0 10 (Scenario.restore_at 10)).
  - reflexivity.
  - reflexivity.
  - apply Z.leb_le. reflexivity.
Defined.

(** C1, as stated, fails.  With 25 examples in batches of 10 the
    bookkeeping counts 3 updates in an epoch and hence one epoch for a
    budget of 3; a loader that yields the two full batches makes that epoch
    return global step 2.  The loop then ends because the range is
    exhausted, the budget check never having fired, and the run saves its
    final checkpoint at step 2; with one more epoch in the range the same
    collaborator would have reached step 3.  And a run resumed at the end of
    its last epoch leaves the loop without a single comparison, whatever the
    collaborator does. *)
Lemma epoch_loop_budget_exit_counterexample :
  (let E := Scenario.env true 1 2 None in
   exists t w,
     main E Scenario.short_config Scenario.world0 = (t, w, inr tt) /\
     epoch_calls t = [(0, 0, 2)] /\
     In (EvSaveCheckpoint 2) t /\
     2 < max_train_steps Scenario.short_config /\
     (forall g m, ~ In (EvPrint (MsgFinishingTraining g m)) t) /\
     (epoch_loop E Scenario.short_config 0 (Py.range 0 1) 0 Scenario.world0).2 = inr 2 /\
     (epoch_loop E Scenario.short_config 0 (Py.range 0 2) 0 Scenario.world0).2 = inr 3)
  /\
  (let E := Scenario.env true 2 10 (Some 10) in
   exists t w,
     main E (Scenario.config 10 true) Scenario.world0 = (t, w, inr tt) /\
     epoch_calls t = [] /\
     (forall g m, ~ In (EvPrint (MsgFinishingTraining g m)) t)).
Proof.
  split.
  - eexists _, _. split; [vm_compute; reflexivity|].
    split; [reflexivity|].
    split; [cbn; tauto|].
    split; [cbn; lia|].
    split; [|split; reflexivity].
    intros g m H. cbn in H.
    repeat (destruct H as [H|H]; [discriminate H|]). exact H.
  - eexists _, _. split; [vm_compute; reflexivity|].
    split; [reflexivity|].
    intros g m H. cbn in H.
    repeat (destruct H as [H|H]; [discriminate H|]). exact H.
Qed.

End TrainFacts.

Module LoggerFacts.

Import Logger.

Section Formatting.

Context `{Externals}.

Lemma append_cons (c : ascii) (s1 s2 : string) :
  (String c s1 ++ s2)%string = String c (s1 ++ s2)%string.
Proof. reflexivity. Qed.

Lemma append_nil_r (s : string) : (s ++ "")%string = s.
Proof.
  induction s as [|c s IH]; [reflexivity|].
  rewrite append_cons, IH. reflexivity.
Qed.

Lemma append_assoc (s1 s2 s3 : string) :
  ((s1 ++ s2) ++ s3)%string = (s1 ++ (s2 ++ s3))%string.
Proof.
  induction s1 as [|c s1 IH]; [reflexivity|].
  rewrite !append_cons, IH. reflexivity.
Qed.

(** Formatting a format string that continues: when the first part
    formats on its own, the whole is the first part's text followed by
    the text of the rest. *)
Lemma percent_from_app (record : LogRecord) (rest : string) (header : string) :
  forall (st : pstate) (head : string),
    percent_from st header record = inr head ->
    percent_from st (header ++ rest) record =
      match percent_from Text rest record with
      | inl e => inl e
      | inr s => inr (head ++ s)%string
      end.
Proof.
  induction header as [|c header IH]; intros st head Hhead.
  - destruct st; cbn in Hhead; try discriminate.
    injection Hhead as <-. change ("" ++ rest)%string with rest.
    destruct (percent_from Text rest record); reflexivity.
  - rewrite append_cons. cbn [percent_from] in *.
    destruct st.
    + destruct (Ascii.eqb c "%"); [apply IH; exact Hhead|].
      destruct (percent_from Text header record) as [e|s] eqn:Hs; [discriminate|].
      injection Hhead as <-. rewrite (IH Text s Hs).
      destruct (percent_from Text rest record); reflexivity.
    + destruct (Ascii.eqb c "%").
      * destruct (percent_from Text header record) as [e|s] eqn:Hs; [discriminate|].
        injection Hhead as <-. rewrite (IH Text s Hs).
        destruct (percent_from Text rest record); reflexivity.
      * destruct (Ascii.eqb c "("); [apply IH; exact Hhead | discriminate].
    + destruct (Ascii.eqb c ")"); apply IH; exact Hhead.
    + destruct (Ascii.eqb c "s"); [|discriminate].
      destruct (record_str record key) as [e|v]; [discriminate|].
      destruct (percent_from Text header record) as [e|s] eqn:Hs; [discriminate|].
      injection Hhead as <-. rewrite (IH Text s Hs).
      destruct (percent_from Text rest record); [reflexivity|].
      rewrite append_assoc. reflexivity.
Qed.

Lemma percent_from_message (record : LogRecord) :
  percent_from Text "%(message)s" record = inr (message record).
Proof.
  transitivity (@inr exn string (message record ++ "")%string); [reflexivity|].
  rewrite append_nil_r. reflexivity.
Qed.

Lemma percent_format_message (record : LogRecord) (header head : string) :
  percent_format header record = inr head ->
  percent_format (header ++ "%(message)s") record = inr (head ++ message record)%string.
Proof.
  intros Hhead. unfold percent_format.
  rewrite (percent_from_app record "%(message)s" header Text head Hhead).
  rewrite percent_from_message. reflexivity.
Qed.

(** C7.  For a record that the base formatter renders as [log], the
    colourful formatter returns [log] itself at INFO and at DEBUG, [log]
    behind the blinking red WARNING marker at WARNING, and [log] behind
    the blinking, underlined red ERROR marker at ERROR and at CRITICAL.
    The record keeps its message, and under a format that ends in
    [%(message)s] the line ends with that message, character for
    character. *)
Theorem formatMessage_marker (fmt _root_name _abbrev_name : string)
    (record : LogRecord) (log : string) :
  Formatter_formatMessage fmt
    (set_name record (replace (name record) _root_name _abbrev_name)) = inr log ->
  let self := _ColorfulFormatter fmt _root_name _abbrev_name in
  let record' := (formatMessage self record).1 in
  let line := (formatMessage self record).2 in
  (levelno record = INFO \/ levelno record = DEBUG -> line = inr log) /\
  (levelno record = WARNING ->
     line = inr (colored "WARNING" "red" ["blink"%string] ++ " " ++ log)%string) /\
  (levelno record = ERROR \/ levelno record = CRITICAL ->
     line = inr (colored "ERROR" "red" ["blink"; "underline"]%string
                 ++ " " ++ log)%string) /\
  message record' = message record /\
  (forall header head,
      fmt = (header ++ "%(message)s")%string ->
      percent_format header record' = inr head ->
      log = (head ++ message record)%string).
Proof.
  intros Hlog self record' line.
  assert (formatMessage self record =
            (set_name record (replace (name record) _root_name _abbrev_name),
             inr (if levelno record =? WARNING
                  then (colored "WARNING" "red" ["blink"%string] ++ " " ++ log)%string
                  else if (levelno record =? ERROR) || (levelno record =? CRITICAL)
                       then (colored "ERROR" "red" ["blink"; "underline"]%string
                             ++ " " ++ log)%string
                       else log))) as Hrun.
  { subst self. cbn [formatMessage]. rewrite Hlog.
    change (levelno (set_name record (replace (name record) _root_name _abbrev_name)))
      with (levelno record).
    destruct (levelno record =? WARNING);
      [|destruct ((levelno record =? ERROR) || (levelno record =? CRITICAL))];
      reflexivity. }
  subst record' line. rewrite Hrun. cbn [fst snd].
  split; [|split; [|split; [|split]]].
  - intros [Hl|Hl]; rewrite Hl; reflexivity.
  - intros Hl. rewrite Hl. reflexivity.
  - intros [Hl|Hl]; rewrite Hl; reflexivity.
  - reflexivity.
  - intros header head Hfmt Hhead. subst fmt.
    unfold Formatter_formatMessage in Hlog.
    rewrite (percent_format_message _ _ _ Hhead) in Hlog.
    injection Hlog as <-. reflexivity.
Qed.

End Formatting.

(** A warning on a colour terminal: the line is the blinking red marker, a
    space, the green header and the message. *)
Lemma formatMessage_marker_witness :
  Formatter_formatMessage (H := Scenario.terminal) Scenario.fmt
    (set_name Scenario.warning_record
       (replace (name Scenario.warning_record) "ARModel." "ARModel.."))
  = inr Scenario.warning_log
  /\ (formatMessage (H := Scenario.terminal) (_ColorfulFormatter Scenario.fmt "ARModel." "ARModel..")
        Scenario.warning_record).2
     = inr (Scenario.ansi_colored "WARNING" "red" ["blink"%string]
            ++ " " ++ Scenario.warning_log)%string
  /\ message (formatMessage (H := Scenario.terminal) (_ColorfulFormatter Scenario.fmt "ARModel." "ARModel..")
                Scenario.warning_record).1
     = "loss is nan"%string.
Proof.
  assert (Formatter_formatMessage (H := Scenario.terminal) Scenario.fmt
            (set_name Scenario.warning_record
               (replace (name Scenario.warning_record) "ARModel." "ARModel.."))
          = inr Scenario.warning_log) as Hlog by (vm_compute; reflexivity).
  split; [exact Hlog|].
  destruct (formatMessage_marker (H := Scenario.terminal) Scenario.fmt
              "ARModel." "ARModel.." Scenario.warning_record Scenario.warning_log Hlog)
    as (_ & Hwarning & _ & Hmessage & _).
  split; [apply Hwarning; reflexivity | exact Hmessage].
Defined.

Example formatter_of_setup_logger :
  Scenario.formatter = _ColorfulFormatter Scenario.fmt "ARModel." "ARModel..".
Proof. reflexivity. Qed.

(** The levels of the claim, one line each: INFO and DEBUG plain, WARNING
    and ERROR/CRITICAL behind their markers. *)
Example formatMessage_levels :
  let line lvl :=
    (formatMessage (H := Scenario.terminal) Scenario.formatter
       {| name := "ARModel"; levelno := lvl; levelname := "";
          asctime := "t"; message := "m" |}).2 in
  let body := (Scenario.ansi_colored "[t ARModel]: " "green" [] ++ "m")%string in
  line INFO = inr body
  /\ line DEBUG = inr body
  /\ line WARNING
     = inr (Scenario.ansi_colored "WARNING" "red" ["blink"%string] ++ " " ++ body)%string
  /\ line ERROR
     = inr (Scenario.ansi_colored "ERROR" "red" ["blink"; "underline"]%string
            ++ " " ++ body)%string
  /\ line CRITICAL
     = inr (Scenario.ansi_colored "ERROR" "red" ["blink"; "underline"]%string
            ++ " " ++ body)%string.
Proof. vm_compute. repeat split. Qed.

(** A child logger's name: the root prefix is replaced by the abbreviation,
    which [__init__] has made the root name with one more dot. *)
Example formatMessage_renames :
  name (formatMessage (H := Scenario.terminal) Scenario.formatter
          {| name := "ARModel.data"; levelno := INFO; levelname := "INFO";
             asctime := "t"; message := "m" |}).1
  = "ARModel..data"%string.
Proof. vm_compute. reflexivity. Qed.

Section Cache.

Context `{Externals}.

Lemma cache_get_take_head (c : Call) (r : Returned) (l : list (Call * Returned)) :
  cache_get c (take maxsize ((c, r) :: l)) = Some r.
Proof. cbn. destruct (decide (c = c)); [reflexivity | contradiction]. Qed.

Lemma cache_get_take_none (c : Call) (l : list (Call * Returned)) :
  cache_get c l = None -> forall n, cache_get c (take n l) = None.
Proof.
  induction l as [|[k v] l IH]; intros Hc n; destruct n; try reflexivity.
  cbn in Hc |- *. destruct (decide (c = k)); [discriminate|]. apply IH, Hc.
Qed.

(** The body, when it returns: the logger of that name gets the new
    handlers behind the ones it has, and the cache is not touched. *)
Lemma wrapped_returns (a : Args) (st st' : State) (r : Returned) :
  setup_logger__wrapped__ a st = (inr r, st') ->
  handlers_of st' (logger_key (arg_name a))
  = handlers_of st (logger_key (arg_name a)) ++ new_handlers a (next_id st)
  /\ cache st' = cache st
  /\ (next_id st < next_id st')%nat.
Proof.
  unfold setup_logger__wrapped__, lbind, getLogger, setLevel, fresh_id, addHandler,
    lret, lraise, new_handlers.
  destruct (arg_log_level a) as [log_level|];
    [destruct (_checkLevel (upper log_level)) as [e|lvl]; [discriminate|]|];
    (destruct (arg_output_file a) as [output_file|];
     [destruct (can_open output_file); [|discriminate]|]);
    destruct (arg_use_accelerate a);
    intros [= <- <-];
    unfold handlers_of, lookup_logger; cbn [loggerDict next_id cache];
    repeat (rewrite lookup_insert_eq;
            cbn [default from_option handlers level loggerDict next_id cache]);
    destruct (loggerDict st !! logger_key (arg_name a));
    cbn; rewrite <- ?app_assoc; repeat split; lia.
Qed.

(** The body returns whenever the level, if one is given, is a name that
    [logging] knows and the output file, if one is given, can be opened. *)
Lemma wrapped_total (a : Args) (st : State) :
  (forall l, arg_log_level a = Some l -> exists n, _checkLevel (upper l) = inr n) ->
  (forall f, arg_output_file a = Some f -> can_open f = true) ->
  exists r st', setup_logger__wrapped__ a st = (inr r, st').
Proof.
  intros Hlevel Hfile.
  unfold setup_logger__wrapped__, lbind, getLogger, setLevel, fresh_id, addHandler,
    lret, lraise.
  destruct (arg_log_level a) as [log_level|];
    [destruct (Hlevel log_level eq_refl) as [lvl ->]|];
    (destruct (arg_output_file a) as [output_file|];
     [rewrite (Hfile output_file eq_refl)|]);
    destruct (arg_use_accelerate a); eexists _, _; reflexivity.
Qed.

Lemma setup_logger_hit (c : Call) (st : State) (r : Returned) :
  cache_get c (cache st) = Some r ->
  setup_logger c st = (inr r, with_cache st ((c, r) :: cache_remove c (cache st))).
Proof. intros Hc. unfold setup_logger, lru_cache. rewrite Hc. reflexivity. Qed.

Lemma setup_logger_miss (c : Call) (st st1 : State) (r : Returned) :
  cache_get c (cache st) = None ->
  setup_logger c st = (inr r, st1) ->
  exists a st',
    bind_arguments c = inr a /\
    setup_logger__wrapped__ a st = (inr r, st') /\
    st1 = with_cache st' (take maxsize ((c, r) :: cache st')).
Proof.
  intros Hc. unfold setup_logger, lru_cache. rewrite Hc.
  destruct (bind_arguments c) as [e|a]; [discriminate|].
  destruct (setup_logger__wrapped__ a st) as [[e|v] st'] eqn:Hbody; [discriminate|].
  intros [= <- <-]. exists a, st'. repeat split. exact Hbody.
Qed.

(** A well-formed call returns, from the cache or from the body, whenever
    its level, if any, is known and its output file, if any, can be
    opened. *)
Lemma setup_logger_returns (c : Call) (a : Args) (st : State) :
  bind_arguments c = inr a ->
  (forall l, arg_log_level a = Some l -> exists n, _checkLevel (upper l) = inr n) ->
  (forall f, arg_output_file a = Some f -> can_open f = true) ->
  exists r st1, setup_logger c st = (inr r, st1).
Proof.
  intros Hbind Hlevel Hfile. unfold setup_logger, lru_cache.
  destruct (cache_get c (cache st)) as [v|]; [eexists _, _; reflexivity|].
  rewrite Hbind.
  destruct (wrapped_total a st Hlevel Hfile) as (r & st' & ->).
  eexists _, _. reflexivity.
Qed.

(** After a call that returned, the result is in the cache. *)
Lemma setup_logger_cached (c : Call) (st st1 : State) (r : Returned) :
  setup_logger c st = (inr r, st1) -> cache_get c (cache st1) = Some r.
Proof.
  intros Hrun.
  destruct (cache_get c (cache st)) as [v|] eqn:Hc.
  - rewrite (setup_logger_hit c st v Hc) in Hrun.
    injection Hrun as <- <-. cbn.
    destruct (decide (c = c)); [reflexivity | contradiction].
  - destruct (setup_logger_miss c st st1 r Hc Hrun) as (a & st' & _ & _ & ->).
    apply cache_get_take_head.
Qed.

Lemma new_handlers_console (a : Args) (n : nat) :
  length (List.filter is_console (new_handlers a n)) = 1%nat.
Proof. unfold new_handlers. destruct (arg_output_file a); reflexivity. Qed.

Lemma new_handlers_file (a : Args) (n : nat) :
  length (List.filter is_file (new_handlers a n))
  = match arg_output_file a with Some _ => 1%nat | None => 0%nat end.
Proof. unfold new_handlers. destruct (arg_output_file a); reflexivity. Qed.

(** C4 (amended).  When a call has returned, the same call again, with the
    same arguments passed in the same way, returns the very same object out
    of the cache: it creates no object and leaves every logger as it is.  If
    the first of the two calls was not cached and the logger had no handler
    before it, the logger holds exactly one console handler after both, and
    exactly one file handler when an output file is given, none when
    [output_file] is [None]. *)
Theorem setup_logger_idempotent (c : Call) (st st1 : State) (r : Returned) :
  setup_logger c st = (inr r, st1) ->
  exists st2,
    setup_logger c st1 = (inr r, st2) /\
    loggerDict st2 = loggerDict st1 /\
    next_id st2 = next_id st1 /\
    (forall a,
        bind_arguments c = inr a ->
        cache_get c (cache st) = None ->
        handlers_of st (logger_key (arg_name a)) = [] ->
        length (List.filter is_console (handlers_of st2 (logger_key (arg_name a)))) = 1%nat
        /\ length (List.filter is_file (handlers_of st2 (logger_key (arg_name a))))
           = match arg_output_file a with Some _ => 1%nat | None => 0%nat end).
Proof.
  intros Hrun.
  pose proof (setup_logger_cached c st st1 r Hrun) as Hcached.
  exists (with_cache st1 ((c, r) :: cache_remove c (cache st1))).
  split; [apply setup_logger_hit, Hcached|].
  split; [reflexivity|]. split; [reflexivity|].
  intros a Hbind Hc Hnone.
  destruct (setup_logger_miss c st st1 r Hc Hrun) as (a' & st' & Hbind' & Hbody & ->).
  rewrite Hbind in Hbind'. injection Hbind' as <-.
  destruct (wrapped_returns a st st' r Hbody) as (Hh & _ & _).
  change (handlers_of (with_cache _ _) ?k) with (handlers_of st' k).
  rewrite Hh, Hnone. cbn [app].
  split; [apply new_handlers_console | apply new_handlers_file].
Qed.

Lemma formatMessage_levelno (f : Formatter) (record : LogRecord) :
  levelno (formatMessage f record).1 = levelno record.
Proof.
  destruct f as [fmt|fmt root abbrev]; cbn [formatMessage]; [reflexivity|].
  destruct (Formatter_formatMessage fmt _); [reflexivity|].
  change (levelno (set_name record (replace (name record) root abbrev)))
    with (levelno record).
  destruct (levelno record =? WARNING);
    [|destruct ((levelno record =? ERROR) || (levelno record =? CRITICAL))];
    reflexivity.
Qed.

(** Every console handler whose level admits the record writes one line
    to the standard output. *)
Lemma callHandlers_stdout (hs : list Handler) :
  forall record,
    length (List.filter is_stdout (callHandlers hs record))
    = length (List.filter
                (fun h => is_console h && (h_level h <=? levelno record)) hs).
Proof.
  induction hs as [|h hs IH]; intros record; [reflexivity|].
  cbn [callHandlers List.filter].
  destruct (h_level h <=? levelno record) eqn:Hl.
  - pose proof (formatMessage_levelno (h_formatter h) record) as Hlev.
    destruct (formatMessage (h_formatter h) record) as [record' line].
    cbn [fst] in Hlev. cbn [List.filter].
    change (is_stdout (h_stream h, line)) with (is_console h).
    destruct (is_console h); cbn [andb length]; rewrite IH, Hlev; reflexivity.
  - rewrite andb_false_r. apply IH.
Qed.

Lemma new_handlers_stdout (a : Args) (n : nat) (record : LogRecord) :
  DEBUG <= levelno record ->
  length (List.filter (fun h => is_console h && (h_level h <=? levelno record))
            (new_handlers a n)) = 1%nat.
Proof.
  intros Hl. unfold new_handlers. cbn [List.filter is_console h_stream h_level andb].
  apply Z.leb_le in Hl. rewrite Hl.
  destruct (arg_output_file a); reflexivity.
Qed.

(** C9.  A second call for the same name with another value for some other
    parameter, neither call being in the cache beforehand and both
    returning: the second is not answered from the cache; it appends a
    console handler of its own (and its file handler, if any) to the
    handlers of the same logger, which then holds at least two console
    handlers; every record of level DEBUG or above that reaches the handlers
    is then written to the standard output at least twice. *)
Theorem setup_logger_other_arguments (c1 c2 : Call) (a1 a2 : Args)
    (st st1 st2 : State) (r1 r2 : Returned) :
  bind_arguments c1 = inr a1 ->
  bind_arguments c2 = inr a2 ->
  arg_name a2 = arg_name a1 ->
  a2 <> a1 ->
  cache_get c1 (cache st) = None ->
  cache_get c2 (cache st) = None ->
  setup_logger c1 st = (inr r1, st1) ->
  setup_logger c2 st1 = (inr r2, st2) ->
  let key := logger_key (arg_name a1) in
  cache_get c2 (cache st1) = None /\
  (exists ch files,
      handlers_of st2 key = handlers_of st1 key ++ ch :: files /\
      is_console ch = true /\
      Forall (fun h => is_file h = true) files) /\
  (2 <= length (List.filter is_console (handlers_of st2 key)))%nat /\
  (forall record,
      DEBUG <= levelno record ->
      (2 <= length (List.filter is_stdout (callHandlers (handlers_of st2 key) record)))%nat).
Proof.
  intros Hbind1 Hbind2 Hname Hne Hc1 Hc2 Hrun1 Hrun2 key. subst key.
  assert (c2 <> c1) as Hcall by (intros ->; rewrite Hbind1 in Hbind2; congruence).
  destruct (setup_logger_miss c1 st st1 r1 Hc1 Hrun1) as (a1' & st' & Hb1 & Hbody1 & ->).
  rewrite Hbind1 in Hb1. injection Hb1 as <-.
  destruct (wrapped_returns a1 st st' r1 Hbody1) as (Hh1 & Hcache1 & _).
  assert (cache_get c2 (cache (with_cache st' (take maxsize ((c1, r1) :: cache st'))))
          = None) as Hmiss.
  { cbn [cache with_cache]. apply cache_get_take_none. cbn.
    destruct (decide (c2 = c1)); [contradiction|]. rewrite Hcache1. exact Hc2. }
  destruct (setup_logger_miss c2 _ st2 r2 Hmiss Hrun2) as (a2' & st'' & Hb2 & Hbody2 & ->).
  rewrite Hbind2 in Hb2. injection Hb2 as <-.
  destruct (wrapped_returns a2 _ st'' r2 Hbody2) as (Hh2 & _ & _).
  rewrite Hname in Hh2.
  change (handlers_of (with_cache ?s _) ?k) with (handlers_of s k) in *.
  change (next_id (with_cache ?s _)) with (next_id s) in *.
  split; [exact Hmiss|]. split; [|split].
  - rewrite Hh2. unfold new_handlers.
    eexists _, _. split; [reflexivity|]. split; [reflexivity|].
    destruct (arg_output_file a2); repeat constructor.
  - rewrite Hh2, Hh1, !List.filter_app, !length_app, !new_handlers_console. lia.
  - intros record Hl.
    rewrite callHandlers_stdout, Hh2, Hh1, !List.filter_app, !length_app.
    rewrite !new_handlers_stdout by exact Hl. lia.
Qed.

End Cache.

(** The call of [main], twice. *)
Lemma setup_logger_idempotent_witness :
  setup_logger (H := Scenario.terminal) Scenario.call initial_state
  = (inr (MultiProcessAdapter 2 "ARModel"), Scenario.once)
  /\ exists st2,
       setup_logger (H := Scenario.terminal) Scenario.call Scenario.once
       = (inr (MultiProcessAdapter 2 "ARModel"), st2) /\
       loggerDict st2 = loggerDict Scenario.once /\
       next_id st2 = next_id Scenario.once /\
       length (List.filter is_console (handlers_of st2 "ARModel")) = 1%nat /\
       length (List.filter is_file (handlers_of st2 "ARModel")) = 1%nat.
Proof.
  assert (setup_logger (H := Scenario.terminal) Scenario.call initial_state
          = (inr (MultiProcessAdapter 2 "ARModel"), Scenario.once)) as Hrun
    by (vm_compute; reflexivity).
  split; [exact Hrun|].
  destruct (setup_logger_idempotent (H := Scenario.terminal) Scenario.call
              initial_state Scenario.once (MultiProcessAdapter 2 "ARModel") Hrun)
    as (st2 & Hsecond & Hdict & Hid & Hcount).
  exists st2. split; [exact Hsecond|]. split; [exact Hdict|]. split; [exact Hid|].
  apply (Hcount {| arg_name := "ARModel"; arg_log_level := Some "INFO"%string;
                   arg_color := true; arg_use_accelerate := true;
                   arg_output_file := Some "out/log0.txt"%string |});
    vm_compute; reflexivity.
Defined.

(** C4, as stated, fails in two ways.  Called twice without an output file,
    [setup_logger(name="ARModel")] leaves the logger with its console
    handler and no file handler at all.  And the arguments of the call of
    [main], the first two passed by position instead of by keyword, are
    the same five values under another cache key: the second call runs the
    body again, returns another object and attaches a second console
    handler. *)
Lemma setup_logger_idempotent_counterexample :
  (let st1 := (setup_logger (H := Scenario.terminal) Scenario.call_console
                 initial_state).2 in
   let st2 := (setup_logger (H := Scenario.terminal) Scenario.call_console st1).2 in
   (setup_logger (H := Scenario.terminal) Scenario.call_console initial_state).1
   = inr (MultiProcessAdapter 1 "ARModel")
   /\ (setup_logger (H := Scenario.terminal) Scenario.call_console st1).1
      = inr (MultiProcessAdapter 1 "ARModel")
   /\ length (List.filter is_console (handlers_of st2 "ARModel")) = 1%nat
   /\ length (List.filter is_file (handlers_of st2 "ARModel")) = 0%nat)
  /\
  (let st2 := (setup_logger (H := Scenario.terminal) Scenario.call_by_position
                 Scenario.once).2 in
   bind_arguments Scenario.call_by_position = bind_arguments Scenario.call
   /\ (setup_logger (H := Scenario.terminal) Scenario.call initial_state).1
      = inr (MultiProcessAdapter 2 "ARModel")
   /\ (setup_logger (H := Scenario.terminal) Scenario.call_by_position Scenario.once).1
      = inr (MultiProcessAdapter 5 "ARModel")
   /\ length (List.filter is_console (handlers_of st2 "ARModel")) = 2%nat
   /\ length (List.filter is_file (handlers_of st2 "ARModel")) = 2%nat).
Proof. vm_compute. repeat split. Qed.

(** The call of [main], then the same name at another level. *)
Lemma setup_logger_other_arguments_witness :
  cache_get Scenario.call_debug (cache Scenario.once) = None /\
  (exists ch files,
      handlers_of Scenario.twice "ARModel"
      = handlers_of Scenario.once "ARModel" ++ ch :: files /\
      is_console ch = true /\
      Forall (fun h => is_file h = true) files) /\
  (2 <= length (List.filter is_console (handlers_of Scenario.twice "ARModel")))%nat /\
  (forall record,
      DEBUG <= levelno record ->
      (2 <= length (List.filter is_stdout
                      (callHandlers (H := Scenario.terminal)
                         (handlers_of Scenario.twice "ARModel") record)))%nat).
Proof.
  apply (setup_logger_other_arguments (H := Scenario.terminal)
           Scenario.call Scenario.call_debug
           {| arg_name := "ARModel"; arg_log_level := Some "INFO"%string;
              arg_color := true; arg_use_accelerate := true;
              arg_output_file := Some "out/log0.txt"%string |}
           {| arg_name := "ARModel"; arg_log_level := Some "debug"%string;
              arg_color := true; arg_use_accelerate := true;
              arg_output_file := Some "out/log0.txt"%string |}
           initial_state Scenario.once Scenario.twice
           (MultiProcessAdapter 2 "ARModel") (MultiProcessAdapter 5 "ARModel")).
  - vm_compute. reflexivity.
  - vm_compute. reflexivity.
  - reflexivity.
  - discriminate.
  - reflexivity.
  - reflexivity.
  - vm_compute. reflexivity.
  - vm_compute. reflexivity.
Defined.

(** After the two calls a warning is printed twice. *)
Example duplicated_warning :
  List.filter is_stdout
    (callHandlers (H := Scenario.terminal) (handlers_of Scenario.twice "ARModel")
       Scenario.warning_record)
  = [(Stdout, inr (Scenario.ansi_colored "WARNING" "red" ["blink"%string]
                   ++ " " ++ Scenario.warning_log)%string);
     (Stdout, inr (Scenario.ansi_colored "WARNING" "red" ["blink"%string]
                   ++ " " ++ Scenario.warning_log)%string)].
Proof. vm_compute. reflexivity. Qed.

(** The handlers after one call and after the two calls. *)
Example handlers_after_calls :
  map (fun h => (h_id h, h_stream h)) (handlers_of Scenario.once "ARModel")
  = [(0%nat, Stdout); (1%nat, FileStream "out/log0.txt")]
  /\ map (fun h => (h_id h, h_stream h)) (handlers_of Scenario.twice "ARModel")
     = [(0%nat, Stdout); (1%nat, FileStream "out/log0.txt");
        (3%nat, Stdout); (4%nat, FileStream "out/log0.txt")].
Proof. vm_compute. split; reflexivity. Qed.

(** Binding: a parameter given both by position and by keyword is refused,
    a parameter left out takes its default. *)
Example bind_arguments_examples :
  bind_arguments {| positional := [Name "a"]; keywords := [Name "b"] |}
  = inl (TypeError "got multiple values for argument")
  /\ bind_arguments {| positional := []; keywords := [] |} = inr defaults
  /\ bind_arguments Scenario.call
     = inr {| arg_name := "ARModel"; arg_log_level := Some "INFO"%string;
              arg_color := true; arg_use_accelerate := true;
              arg_output_file := Some "out/log0.txt"%string |}.
Proof. vm_compute. repeat split. Qed.

End LoggerFacts.

(** * Further properties of the orchestrator *)

Module TrainMore.

Import Train.

Lemma range_length (a b : Z) : Z.of_nat (length (Py.range a b)) = Z.max 0 (b - a).
Proof. unfold Py.range. rewrite length_map, length_seq. lia. Qed.


(** Past the range of binary64 the bookkeeping overflows, and a batch size
    that makes the first quotient underflow leaves no update in an epoch
    although there are examples. *)
Example bookkeeping_out_of_range :
  bookkeeping (Scenario.sized_config (10 ^ 400) 1 3)
    (accelerator (Scenario.env true 2 10 None))
  = inl OverflowError
  /\ bookkeeping (Scenario.sized_config 1000 (10 ^ 400) 3)
       (accelerator (Scenario.env true 2 10 None))
     = inl ZeroDivisionError.
Proof. vm_compute. split; reflexivity. Qed.

Section Runs.

Context {P X : Type} (E : Env P X) (config : Config).

(** X2.  When the bookkeeping raises, the run ends there: the process has
    done its start-up work (a primary one has initialised the trackers and
    written the config snapshot), passed the first barrier and built its
    objects; it does not resume, trains no epoch, passes no second barrier,
    saves no checkpoint, exports nothing and does not end the trackers. *)
Theorem main_aborts (e : exn) (w0 : World P X) :
  bookkeeping config (accelerator E) = inl e ->
  exists before after w,
    main E config w0 = (before ++ EvWaitForEveryone :: after, w, inl e) /\
    Forall (fun ev => is_preparation ev = true) before /\
    Forall (fun ev => is_preparation ev = true) after /\
    ~ In EvAutoResume (before ++ after) /\
    ~ In EvEndTraining (before ++ after) /\
    List.filter is_init_write before
    = if is_main_process (accelerator E)
      then [EvInitTrackers (experiment_name config); EvSaveConfig (output_dir config)]
      else [].
Proof.
  intros Hb.
  exists (trace_of (startup E config) w0), (trace_of (build E config) w0),
         (world_after (build E config) w0).
  split.
  { unfold main, bind.
    rewrite TrainFacts.startup_run. cbn beta iota. unfold emit at 1. cbn beta iota.
    rewrite TrainFacts.build_run. unfold lift at 1. rewrite Hb. cbn.
    rewrite app_nil_r. reflexivity. }
  split; [apply TrainFacts.startup_preparation|].
  split; [apply TrainFacts.build_preparation|].
  unfold trace_of, startup, build.
  destruct (is_main_process (accelerator E)), (seed config), (use_ema config);
    cbn; (split; [|split; [|reflexivity]]); intros H;
    repeat (destruct H as [H|H]; [discriminate H|]); exact H.
Qed.


Lemma save_checkpoint_once (w0 : World P X) (t_loop : list (event P))
    (w_loop : World P X) (g' : Z) :
  Forall (fun ev => is_training ev = true) t_loop ->
  List.filter is_save_checkpoint
    (trace_of (startup E config) w0
     ++ EvWaitForEveryone
     :: trace_of (build E config) w0
     ++ trace_of (report E config) w0
     ++ EvAutoResume
     :: t_loop
     ++ EvWaitForEveryone
     :: EvSaveCheckpoint g'
     :: trace_of (final_export E config) w_loop ++ [EvEndTraining])
  = [EvSaveCheckpoint g'].
Proof.
  intros Hloop.
  assert (forall t : list (event P),
             Forall (fun ev => is_preparation ev = true) t ->
             List.filter is_save_checkpoint t = []) as Hprep.
  { intros t Ht. apply TrainFacts.filter_none.
    eapply List.Forall_impl; [|exact Ht]. intros ev. destruct ev; cbn; congruence. }
  rewrite List.filter_app, (Hprep _ (TrainFacts.startup_preparation E config w0)).
  cbn [app List.filter is_save_checkpoint].
  rewrite List.filter_app, (Hprep _ (TrainFacts.build_preparation E config w0)).
  cbn [app].
  rewrite List.filter_app, (Hprep _ (TrainFacts.report_preparation E config w0)).
  cbn [app List.filter is_save_checkpoint].
  rewrite List.filter_app.
  rewrite (TrainFacts.filter_none is_save_checkpoint t_loop).
  2:{ eapply List.Forall_impl; [|exact Hloop]. intros ev. destruct ev; cbn; congruence. }
  cbn [app List.filter is_save_checkpoint].
  rewrite List.filter_app.
  rewrite (TrainFacts.filter_none is_save_checkpoint (trace_of (final_export E config) w_loop)).
  2:{ eapply List.Forall_impl; [|apply TrainFacts.final_export_events].
      intros ev. destruct ev; cbn; congruence. }
  reflexivity.
Qed.


(** The loop hands the global step from call to call and ends with the
    step that the last call returned. *)
Lemma epoch_loop_chained (last_epoch : Z) (epochs : list Z) :
  forall g w t w' g',
    epoch_loop E config last_epoch epochs g w = (t, w', inr g') ->
    chained g (epoch_calls t)
    /\ g' = default g (snd <$> last (epoch_calls t)).
Proof.
  induction epochs as [|e epochs IH]; intros g w t w' g' Hrun.
  - cbn in Hrun. injection Hrun as <- _ <-. split; reflexivity.
  - rewrite TrainFacts.epoch_loop_cons in Hrun.
    destruct (train_one_epoch_generator E config w g) as [w1 g1].
    destruct (g1 >=? max_train_steps config).
    + injection Hrun as <- _ <-. cbn. repeat split.
    + destruct (epoch_loop E config last_epoch epochs g1 w1) as [[t1 w2] r] eqn:Hrest.
      injection Hrun as <- _ ->.
      destruct (IH g1 w1 t1 w2 g' Hrest) as [Hchain Hlast].
      cbn [epoch_calls chained]. split; [split; [reflexivity | exact Hchain]|].
      rewrite last_cons, Hlast. destruct (last (epoch_calls t1)); reflexivity.
Qed.

(** X4.  Step accounting of a run that completes: the first call of the
    collaborator is passed the global step that [auto_resume] answered, each
    later call is passed what the call before it returned, and every
    process, primary or not, saves exactly one final checkpoint, at the step
    that the last call returned (at the resumed step when no epoch ran). *)
Theorem global_step_threaded (b : Bookkeeping) (w0 : World P X) :
  bookkeeping config (accelerator E) = inr b ->
  exists t w g',
    main E config w0 = (t, w, inr tt) /\
    chained (resumed_at E (num_update_steps_per_epoch b)).1 (epoch_calls t) /\
    g' = default (resumed_at E (num_update_steps_per_epoch b)).1
           (snd <$> last (epoch_calls t)) /\
    List.filter is_save_checkpoint t = [EvSaveCheckpoint g'].
Proof.
  intros Hb.
  destruct (TrainFacts.main_shape E config b w0 Hb)
    as (t_loop & w_loop & g' & Hloop & Hmain).
  pose proof (TrainFacts.epoch_loop_events E config (num_train_epochs b - 1)
                (Py.range (resumed_at E (num_update_steps_per_epoch b)).2
                   (num_train_epochs b))
                (resumed_at E (num_update_steps_per_epoch b)).1
                (resumed_world E (world_after (build E config) w0))) as Hev.
  rewrite Hloop in Hev. cbn [fst] in Hev.
  destruct (epoch_loop_chained _ _ _ _ _ _ _ Hloop) as [Hchain Hlast].
  eexists _, _, g'. split; [exact Hmain|].
  rewrite TrainFacts.main_epoch_calls.
  split; [exact Hchain|]. split; [exact Hlast|].
  apply save_checkpoint_once, Hev.
Qed.

(** The epochs that the loop visits are the first ones of its list. *)
Lemma epoch_loop_prefix (last_epoch : Z) (epochs : list Z) :
  forall g w,
    map (fun c => c.1.1) (epoch_calls (epoch_loop E config last_epoch epochs g w).1.1)
    `prefix_of` epochs.
Proof.
  induction epochs as [|e epochs IH]; intros g w.
  - cbn. reflexivity.
  - rewrite TrainFacts.epoch_loop_cons.
    destruct (train_one_epoch_generator E config w g) as [w1 g1].
    destruct (g1 >=? max_train_steps config).
    + cbn. apply prefix_cons, prefix_nil.
    + specialize (IH g1 w1).
      destruct (epoch_loop E config last_epoch epochs g1 w1) as [[t1 w2] r].
      cbn in IH |- *. apply prefix_cons, IH.
Qed.

(** X5.  The epochs that a completing run trains are consecutive, the first
    being the one that [auto_resume] answered, and there are never more of
    them than [num_train_epochs] minus that first epoch. *)
Theorem epochs_consecutive (b : Bookkeeping) (w0 : World P X) :
  bookkeeping config (accelerator E) = inr b ->
  exists t w,
    main E config w0 = (t, w, inr tt) /\
    map (fun c => c.1.1) (epoch_calls t)
    `prefix_of` Py.range (resumed_at E (num_update_steps_per_epoch b)).2
                  (num_train_epochs b) /\
    Z.of_nat (length (epoch_calls t))
    <= Z.max 0 (num_train_epochs b - (resumed_at E (num_update_steps_per_epoch b)).2).
Proof.
  intros Hb.
  destruct (TrainFacts.main_shape E config b w0 Hb)
    as (t_loop & w_loop & g' & Hloop & Hmain).
  pose proof (epoch_loop_prefix (num_train_epochs b - 1)
                (Py.range (resumed_at E (num_update_steps_per_epoch b)).2
                   (num_train_epochs b))
                (resumed_at E (num_update_steps_per_epoch b)).1
                (resumed_world E (world_after (build E config) w0))) as Hprefix.
  rewrite Hloop in Hprefix. cbn [fst] in Hprefix.
  eexists _, _. split; [exact Hmain|].
  rewrite TrainFacts.main_epoch_calls.
  split; [exact Hprefix|].
  apply prefix_length in Hprefix. rewrite length_map in Hprefix.
  rewrite <- range_length. lia.
Qed.

(** With a collaborator that never decreases the global step, no call of
    the loop starts below the step the loop started with, returns less than
    it was passed or returns more than the loop ends with. *)
Lemma epoch_loop_monotone (last_epoch : Z) (epochs : list Z) :
  (forall w g, g <= (train_one_epoch_generator E config w g).2) ->
  forall g w t w' g',
    epoch_loop E config last_epoch epochs g w = (t, w', inr g') ->
    g <= g'
    /\ forall e passed returned,
         In (e, passed, returned) (epoch_calls t) ->
         g <= passed /\ passed <= returned /\ returned <= g'.
Proof.
  intros Hmono. induction epochs as [|e epochs IH]; intros g w t w' g' Hrun.
  - cbn in Hrun. injection Hrun as <- _ <-. split; [lia|]. intros e p r [].
  - rewrite TrainFacts.epoch_loop_cons in Hrun.
    pose proof (Hmono w g) as Hg.
    destruct (train_one_epoch_generator E config w g) as [w1 g1]. cbn [snd] in Hg.
    destruct (g1 >=? max_train_steps config).
    + injection Hrun as <- _ <-. split; [exact Hg|].
      intros e' p r [[= <- <- <-]|[]]. lia.
    + destruct (epoch_loop E config last_epoch epochs g1 w1) as [[t1 w2] r1] eqn:Hrest.
      injection Hrun as <- _ ->.
      destruct (IH g1 w1 t1 w2 g' Hrest) as [Hle Hcalls].
      split; [lia|].
      intros e' p r [[= <- <- <-]|Hin]; [lia|].
      destruct (Hcalls _ _ _ Hin) as (H1 & H2 & H3). lia.
Qed.

(** X6.  With a collaborator that never decreases the global step, a run
    never falls behind the checkpoint it resumed from: every call of the
    collaborator is passed and returns a step between the resumed step and
    the step of the final checkpoint, which is therefore not below the
    resumed one. *)
Theorem global_step_never_decreases (b : Bookkeeping) (w0 : World P X) :
  bookkeeping config (accelerator E) = inr b ->
  (forall w g, g <= (train_one_epoch_generator E config w g).2) ->
  exists t w g',
    main E config w0 = (t, w, inr tt) /\
    List.filter is_save_checkpoint t = [EvSaveCheckpoint g'] /\
    (resumed_at E (num_update_steps_per_epoch b)).1 <= g' /\
    forall e passed returned,
      In (e, passed, returned) (epoch_calls t) ->
      (resumed_at E (num_update_steps_per_epoch b)).1 <= passed
      /\ passed <= returned /\ returned <= g'.
Proof.
  intros Hb Hmono.
  destruct (TrainFacts.main_shape E config b w0 Hb)
    as (t_loop & w_loop & g' & Hloop & Hmain).
  pose proof (TrainFacts.epoch_loop_events E config (num_train_epochs b - 1)
                (Py.range (resumed_at E (num_update_steps_per_epoch b)).2
                   (num_train_epochs b))
                (resumed_at E (num_update_steps_per_epoch b)).1
                (resumed_world E (world_after (build E config) w0))) as Hev.
  rewrite Hloop in Hev. cbn [fst] in Hev.
  destruct (epoch_loop_monotone _ _ Hmono _ _ _ _ _ Hloop) as [Hle Hcalls].
  eexists _, _, g'. split; [exact Hmain|].
  split; [apply save_checkpoint_once, Hev|].
  split; [exact Hle|].
  rewrite TrainFacts.main_epoch_calls. exact Hcalls.
Qed.

End Runs.

Lemma string_length_append (s1 s2 : string) :
  String.length (s1 ++ s2) = (String.length s1 + String.length s2)%nat.
Proof.
  induction s1 as [|c s1 IH]; [reflexivity|].
  change (S (String.length (s1 ++ s2)) = S (String.length s1 + String.length s2)).
  rewrite IH. reflexivity.
Qed.



(** An empty dataset on a primary process: the run stops with
    [ZeroDivisionError], one barrier passed and the config snapshot
    written. *)
Lemma main_aborts_witness :
  bookkeeping Scenario.empty_config (accelerator (Scenario.env true 2 10 None))
  = inl ZeroDivisionError
  /\ exists before after w,
       main (Scenario.env true 2 10 None) Scenario.empty_config Scenario.world0
       = (before ++ EvWaitForEveryone :: after, w, inl ZeroDivisionError) /\
       Forall (fun ev => is_preparation ev = true) before /\
       Forall (fun ev => is_preparation ev = true) after /\
       ~ In EvAutoResume (before ++ after) /\
       ~ In EvEndTraining (before ++ after) /\
       List.filter is_init_write before
       = [EvInitTrackers "alitok_ar"; EvSaveConfig "out"].
Proof.
  split; [reflexivity|].
  apply (main_aborts (Scenario.env true 2 10 None) Scenario.empty_config
           ZeroDivisionError Scenario.world0).
  reflexivity.
Defined.


Lemma stepper_monotone (updates budget : Z) (ema : bool) (w : World Z unit) (g : Z) :
  0 <= updates ->
  g <= (Scenario.stepper updates (Scenario.config budget ema) w g).2.
Proof. intros Hu. cbn. destruct (budget <=? g) eqn:Hg; cbn; lia. Qed.


Lemma global_step_threaded_witness :
  exists t w g',
    main (Scenario.env false 2 10 (Some 13)) (Scenario.config 25 true) Scenario.world0
    = (t, w, inr tt) /\
    chained 13 (epoch_calls t) /\
    g' = default 13 (snd <$> last (epoch_calls t)) /\
    List.filter is_save_checkpoint t = [EvSaveCheckpoint g'].
Proof.
  apply (global_step_threaded (Scenario.env false 2 10 (Some 13)) (Scenario.config 25 true)
           {| total_batch_size_without_accum := 20; num_batches := 50;
              num_update_steps_per_epoch := 10; num_train_epochs := 3 |}
           Scenario.world0).
  reflexivity.
Defined.

Lemma epochs_consecutive_witness :
  exists t w,
    main (Scenario.env true 2 10 (Some 13)) (Scenario.config 25 true) Scenario.world0
    = (t, w, inr tt) /\
    map (fun c => c.1.1) (epoch_calls t) `prefix_of` Py.range 1 3 /\
    Z.of_nat (length (epoch_calls t)) <= Z.max 0 (3 - 1).
Proof.
  apply (epochs_consecutive (Scenario.env true 2 10 (Some 13)) (Scenario.config 25 true)
           {| total_batch_size_without_accum := 20; num_batches := 50;
              num_update_steps_per_epoch := 10; num_train_epochs := 3 |}
           Scenario.world0).
  reflexivity.
Defined.

Lemma global_step_never_decreases_witness :
  exists t w g',
    main (Scenario.env true 2 10 (Some 13)) (Scenario.config 25 true) Scenario.world0
    = (t, w, inr tt) /\
    List.filter is_save_checkpoint t = [EvSaveCheckpoint g'] /\
    13 <= g' /\
    forall e passed returned,
      In (e, passed, returned) (epoch_calls t) ->
      13 <= passed /\ passed <= returned /\ returned <= g'.
Proof.
  apply (global_step_never_decreases
           (Scenario.env true 2 10 (Some 13)) (Scenario.config 25 true)
           {| total_batch_size_without_accum := 20; num_batches := 50;
              num_update_steps_per_epoch := 10; num_train_epochs := 3 |}
           Scenario.world0).
  - reflexivity.
  - intros w g. apply stepper_monotone. lia.
Defined.


End TrainMore.

(** * Further properties of the logger *)

Module LoggerMore.

Import Logger.

Section Body.

Context `{Externals}.

(** The body never touches the cache, whether it returns or raises. *)
Lemma wrapped_cache (a : Args) (st : State) :
  cache (setup_logger__wrapped__ a st).2 = cache st.
Proof. run_body. body_cases a; reflexivity. Qed.

(** The body never touches a logger of another name. *)
Lemma wrapped_others (a : Args) (st : State) (k : string) :
  k <> logger_key (arg_name a) ->
  loggerDict (setup_logger__wrapped__ a st).2 !! k = loggerDict st !! k.
Proof.
  intros Hk. run_body.
  body_cases a; cbn [snd loggerDict];
    rewrite ?lookup_insert_ne by congruence; reflexivity.
Qed.

(** What the body appends to the handlers of its logger, whether it returns
    or raises: objects created by this very call. *)
Lemma wrapped_added (a : Args) (st : State) :
  exists added,
    handlers_of (setup_logger__wrapped__ a st).2 (logger_key (arg_name a))
    = handlers_of st (logger_key (arg_name a)) ++ added
    /\ Forall (fun h => (next_id st <= h_id h
                         < next_id (setup_logger__wrapped__ a st).2)%nat) added
    /\ NoDup (map h_id added)
    /\ (next_id st <= next_id (setup_logger__wrapped__ a st).2)%nat.
Proof.
  run_body.
  body_cases a;
    unfold handlers_of, lookup_logger; cbn [snd loggerDict next_id cache];
    repeat (rewrite lookup_insert_eq;
            cbn [default from_option handlers level loggerDict next_id cache]);
    destruct (loggerDict st !! logger_key (arg_name a));
    cbn; rewrite <- ?app_assoc; cbn [app];
    eexists; (split; [first [reflexivity | symmetry; apply app_nil_r]|]);
    (split; [repeat constructor; cbn; lia|]);
    (split; [|lia]); cbn;
    repeat (constructor; [cbn; rewrite ?elem_of_cons, ?elem_of_nil; lia|]);
    constructor.
Qed.

(** What the body leaves when it returns: the level asked for, and the
    logger of that name as the result, wrapped in a new adapter or bare. *)
Lemma wrapped_result (a : Args) (st st' : State) (r : Returned) :
  setup_logger__wrapped__ a st = (inr r, st') ->
  match arg_log_level a with
  | None => level (lookup_logger st' (logger_key (arg_name a))) = DEBUG
  | Some l => _checkLevel (upper l) = inr (level (lookup_logger st' (logger_key (arg_name a))))
  end
  /\ r = (if arg_use_accelerate a
          then MultiProcessAdapter (next_id st' - 1) (logger_key (arg_name a))
          else TheLogger (logger_key (arg_name a)))
  /\ is_Some (loggerDict st' !! logger_key (arg_name a))
  /\ (next_id st < next_id st')%nat.
Proof.
  run_body.
  destruct (arg_log_level a) as [log_level|];
    [destruct (_checkLevel (upper log_level)) as [e|lvl]; [discriminate|]|];
    (destruct (arg_output_file a) as [output_file|];
     [destruct (can_open output_file); [|discriminate]|]);
    destruct (arg_use_accelerate a);
    intros [= <- <-];
    unfold lookup_logger; cbn [loggerDict next_id cache];
    repeat (rewrite lookup_insert_eq;
            cbn [default from_option handlers level loggerDict next_id cache]);
    (split; [reflexivity|]);
    (split; [f_equal; lia|]);
    (split; [eexists; reflexivity | lia]).
Qed.


(** A file that cannot be opened stops the body after the console handler
    is attached. *)
Lemma wrapped_unopenable (a : Args) (f : string) (st : State) :
  (forall l, arg_log_level a = Some l -> exists n, _checkLevel (upper l) = inr n) ->
  arg_output_file a = Some f ->
  can_open f = false ->
  exists st' ch,
    setup_logger__wrapped__ a st = (inl (OSError f), st') /\
    handlers_of st' (logger_key (arg_name a))
    = handlers_of st (logger_key (arg_name a)) ++ [ch] /\
    is_console ch = true /\
    h_id ch = next_id st /\
    next_id st' = S (next_id st) /\
    cache st' = cache st.
Proof.
  intros Hlevel Hfile Hopen. run_body.
  destruct (arg_log_level a) as [log_level|];
    [destruct (Hlevel log_level eq_refl) as [lvl ->]|];
    rewrite Hfile, Hopen;
    eexists _, _; (split; [reflexivity|]);
    unfold handlers_of, lookup_logger; cbn [loggerDict next_id cache];
    repeat (rewrite lookup_insert_eq;
            cbn [default from_option handlers level loggerDict next_id cache]);
    destruct (loggerDict st !! logger_key (arg_name a));
    cbn; repeat split; reflexivity.
Qed.

(** *** The cache as a list *)

Lemma cache_get_None (c : Call) (l : list (Call * Returned)) :
  cache_get c l = None <-> ~ In c (map fst l).
Proof.
  induction l as [|[k v] l IH]; cbn; [tauto|].
  destruct (decide (c = k)) as [->|Hne]; [split; [discriminate|tauto]|].
  rewrite IH. split; [intros Hn [Hk|Hin]; [congruence|tauto] | tauto].
Qed.

Lemma cache_get_Some (c : Call) (v : Returned) (l : list (Call * Returned)) :
  cache_get c l = Some v -> In c (map fst l).
Proof.
  induction l as [|[k w] l IH]; cbn; [discriminate|].
  destruct (decide (c = k)) as [->|Hne]; [tauto|]. intros Hc. right. apply IH, Hc.
Qed.

Lemma cache_get_app (c : Call) (l1 l2 : list (Call * Returned)) :
  cache_get c (l1 ++ l2)
  = match cache_get c l1 with Some v => Some v | None => cache_get c l2 end.
Proof.
  induction l1 as [|[k v] l1 IH]; cbn; [reflexivity|].
  destruct (decide (c = k)); [reflexivity | exact IH].
Qed.

Lemma cache_remove_cons (c : Call) (kv : Call * Returned) (l : list (Call * Returned)) :
  cache_remove c (kv :: l)
  = if decide (kv.1 <> c) then kv :: cache_remove c l else cache_remove c l.
Proof. unfold cache_remove. rewrite filter_cons. reflexivity. Qed.

Lemma cache_remove_In (c k : Call) (l : list (Call * Returned)) :
  In k (map fst (cache_remove c l)) <-> k <> c /\ In k (map fst l).
Proof.
  induction l as [|[k' v] l IH]; [cbn; tauto|].
  rewrite cache_remove_cons. cbn [fst].
  destruct (decide (k' <> c)) as [Hne|Heq]; cbn [map In fst]; rewrite IH.
  - split; [intros [<-|[? ?]]; tauto | tauto].
  - apply dec_stable in Heq. subst k'.
    split; [tauto | intros [Hk [Hc|Hin]]; [congruence | tauto]].
Qed.

Lemma cache_remove_NoDup (c : Call) (l : list (Call * Returned)) :
  NoDup (map fst l) -> NoDup (map fst (cache_remove c l)).
Proof.
  induction l as [|[k v] l IH]; [intros _; constructor|].
  cbn [map fst]. intros Hnd. apply NoDup_cons in Hnd as [Hk Hnd].
  rewrite list_elem_of_In in Hk.
  rewrite cache_remove_cons. cbn [fst].
  destruct (decide (k <> c)); [|apply IH, Hnd].
  cbn [map fst]. constructor; [|apply IH, Hnd].
  rewrite list_elem_of_In, cache_remove_In. tauto.
Qed.

Lemma cache_remove_length (c : Call) (l : list (Call * Returned)) :
  In c (map fst l) -> (S (length (cache_remove c l)) <= length l)%nat.
Proof.
  induction l as [|[k v] l IH]; [intros []|].
  rewrite cache_remove_cons. cbn [fst map In length].
  destruct (decide (k <> c)) as [Hne|Heq].
  - intros [Hk|Hin]; [contradiction|]. cbn [length]. specialize (IH Hin). lia.
  - intros _. pose proof (length_filter (fun kv : Call * Returned => kv.1 <> c) l).
    unfold cache_remove. lia.
Qed.

Lemma cache_get_remove (c k : Call) (l : list (Call * Returned)) :
  k <> c -> cache_get k (cache_remove c l) = cache_get k l.
Proof.
  intros Hk. induction l as [|[k' v] l IH]; [reflexivity|].
  rewrite cache_remove_cons. cbn [fst].
  destruct (decide (k' <> c)) as [Hne|Heq]; cbn [cache_get].
  - destruct (decide (k = k')); [reflexivity | exact IH].
  - apply dec_stable in Heq. subst k'.
    destruct (decide (k = c)); [contradiction | exact IH].
Qed.

Lemma take_NoDup_keys (l : list (Call * Returned)) :
  NoDup (map fst l) -> forall n, NoDup (map fst (take n l)).
Proof.
  induction l as [|[k v] l IH]; intros Hnd n; destruct n; cbn; try constructor.
  - cbn in Hnd. apply NoDup_cons in Hnd as [Hk _].
    rewrite list_elem_of_In in Hk |- *.
    intros Hin. apply Hk. clear -Hin. revert n Hin.
    induction l as [|[k' v'] l IHl]; intros n Hin; destruct n; cbn in *; try tauto.
    destruct Hin as [->|Hin]; [tauto | right; eapply IHl, Hin].
  - cbn in Hnd. apply NoDup_cons in Hnd as [_ Hnd]. apply IH, Hnd.
Qed.

(** What a call leaves of the state when the body runs: the state the body
    leaves, with the result stored when there is one. *)
Lemma setup_logger_run (c : Call) (a : Args) (st : State) :
  bind_arguments c = inr a ->
  cache_get c (cache st) = None ->
  setup_logger c st
  = match setup_logger__wrapped__ a st with
    | (inl e, st') => (inl e, st')
    | (inr v, st') => (inr v, with_cache st' (take maxsize ((c, v) :: cache st')))
    end.
Proof. intros Hb Hc. unfold setup_logger, lru_cache. rewrite Hc, Hb. reflexivity. Qed.

(** Whatever the call and its outcome, the registry and the identities
    after it are those after the body, or those before the call. *)
Lemma setup_logger_registry (c : Call) (st : State) :
  (loggerDict (setup_logger c st).2 = loggerDict st
   /\ next_id (setup_logger c st).2 = next_id st)
  \/ exists a,
       bind_arguments c = inr a /\
       loggerDict (setup_logger c st).2 = loggerDict (setup_logger__wrapped__ a st).2 /\
       next_id (setup_logger c st).2 = next_id (setup_logger__wrapped__ a st).2.
Proof.
  unfold setup_logger, lru_cache.
  destruct (cache_get c (cache st)) as [v|]; [left; split; reflexivity|].
  destruct (bind_arguments c) as [e|a]; [left; split; reflexivity|].
  right. exists a. split; [reflexivity|].
  destruct (setup_logger__wrapped__ a st) as [[e|v] st']; split; reflexivity.
Qed.


(** X9.  An output file that cannot be opened: the call raises [OSError],
    but the console handler is attached by then and stays.  Nothing is
    cached, so the call made again raises again and leaves a second console
    handler, another object, behind the first. *)
Theorem setup_logger_unopenable_file (c : Call) (a : Args) (f : string) (st : State) :
  bind_arguments c = inr a ->
  (forall l, arg_log_level a = Some l -> exists n, _checkLevel (upper l) = inr n) ->
  arg_output_file a = Some f ->
  can_open f = false ->
  cache_get c (cache st) = None ->
  exists st1 st2 ch1 ch2,
    setup_logger c st = (inl (OSError f), st1) /\
    handlers_of st1 (logger_key (arg_name a))
    = handlers_of st (logger_key (arg_name a)) ++ [ch1] /\
    cache st1 = cache st /\
    setup_logger c st1 = (inl (OSError f), st2) /\
    handlers_of st2 (logger_key (arg_name a))
    = handlers_of st (logger_key (arg_name a)) ++ [ch1; ch2] /\
    is_console ch1 = true /\
    is_console ch2 = true /\
    h_id ch1 <> h_id ch2.
Proof.
  intros Hb Hlevel Hfile Hopen Hc.
  destruct (wrapped_unopenable a f st Hlevel Hfile Hopen)
    as (st1 & ch1 & Hrun1 & Hh1 & Hc1 & Hid1 & Hn1 & Hcache1).
  destruct (wrapped_unopenable a f st1 Hlevel Hfile Hopen)
    as (st2 & ch2 & Hrun2 & Hh2 & Hc2 & Hid2 & Hn2 & Hcache2).
  exists st1, st2, ch1, ch2.
  rewrite (setup_logger_run c a st Hb Hc), Hrun1.
  split; [reflexivity|]. split; [exact Hh1|]. split; [exact Hcache1|].
  rewrite (setup_logger_run c a st1 Hb) by (rewrite Hcache1; exact Hc).
  rewrite Hrun2. split; [reflexivity|].
  split; [rewrite Hh2, Hh1, <- app_assoc; reflexivity|].
  split; [exact Hc1|]. split; [exact Hc2|]. lia.
Qed.


(** X11.  A call that is not in the cache and returns leaves the logger
    registered at the level asked for, whatever its level was: DEBUG when
    [log_level] is [None], and otherwise the level that [logging] knows
    under the upper-cased name.  It returns the logger of that name, inside
    an adapter created by this call when [use_accelerate] is set, bare when
    it is not. *)
Theorem setup_logger_result (c : Call) (a : Args) (st st1 : State) (r : Returned) :
  bind_arguments c = inr a ->
  cache_get c (cache st) = None ->
  setup_logger c st = (inr r, st1) ->
  is_Some (loggerDict st1 !! logger_key (arg_name a)) /\
  match arg_log_level a with
  | None => level (lookup_logger st1 (logger_key (arg_name a))) = DEBUG
  | Some l =>
      _checkLevel (upper l) = inr (level (lookup_logger st1 (logger_key (arg_name a))))
  end /\
  match r with
  | MultiProcessAdapter id logger =>
      arg_use_accelerate a = true /\ logger = logger_key (arg_name a)
      /\ (next_id st <= id < next_id st1)%nat
  | TheLogger logger =>
      arg_use_accelerate a = false /\ logger = logger_key (arg_name a)
  end.
Proof.
  intros Hb Hc. rewrite (setup_logger_run c a st Hb Hc).
  destruct (setup_logger__wrapped__ a st) as [[e|v] st'] eqn:Hbody; [discriminate|].
  intros [= <- <-].
  destruct (wrapped_result a st st' v Hbody) as (Hlevel & Hr & Hreg & Hlt).
  split; [exact Hreg|]. split; [exact Hlevel|].
  rewrite Hr. cbn [next_id with_cache].
  destruct (arg_use_accelerate a); repeat split; lia.
Qed.

(** X12.  The cache stays within its 128 entries and holds no call twice,
    whatever is called and whatever comes of it. *)
Theorem cache_sound_preserved (c : Call) (st : State) :
  cache_sound (cache st) -> cache_sound (cache (setup_logger c st).2).
Proof.
  intros [Hlen Hnd]. unfold setup_logger, lru_cache.
  destruct (cache_get c (cache st)) as [v|] eqn:Hc.
  - cbn [snd cache with_cache]. split.
    + cbn [length]. pose proof (cache_remove_length c (cache st) (cache_get_Some c v _ Hc)).
      lia.
    + cbn [map fst]. constructor; [|apply cache_remove_NoDup, Hnd].
      rewrite list_elem_of_In, cache_remove_In. tauto.
  - destruct (bind_arguments c) as [e|a]; [split; assumption|].
    pose proof (wrapped_cache a st) as Hcache.
    destruct (setup_logger__wrapped__ a st) as [[e|v] st']; cbn [snd] in Hcache |- *.
    + rewrite Hcache. split; assumption.
    + cbn [cache with_cache]. rewrite Hcache. split.
      * rewrite length_take. unfold maxsize. lia.
      * apply take_NoDup_keys. cbn [map fst]. constructor; [|exact Hnd].
        rewrite list_elem_of_In. apply cache_get_None, Hc.
Qed.

(** X13.  A call that is not in a full cache and returns takes the place of
    the least recently used call: that one is forgotten, so that it would
    run the body again, and every other call stays cached with its
    result. *)
Theorem setup_logger_evicts_oldest (c k : Call) (r v : Returned)
    (older : list (Call * Returned)) (st st1 : State) :
  cache_sound (cache st) ->
  cache st = older ++ [(k, v)] ->
  length (cache st) = maxsize ->
  cache_get c (cache st) = None ->
  setup_logger c st = (inr r, st1) ->
  cache st1 = (c, r) :: older /\
  cache_get k (cache st1) = None /\
  (forall k', k' <> k -> k' <> c -> cache_get k' (cache st1) = cache_get k' (cache st)).
Proof.
  intros [_ Hnd] Hold Hfull Hc Hrun.
  unfold setup_logger, lru_cache in Hrun. rewrite Hc in Hrun.
  destruct (bind_arguments c) as [e|a]; [discriminate|].
  pose proof (wrapped_cache a st) as Hcache.
  destruct (setup_logger__wrapped__ a st) as [[e|v'] st']; [discriminate|].
  cbn [snd] in Hcache. injection Hrun as <- <-.
  cbn [cache with_cache]. rewrite Hcache, Hold.
  rewrite Hold, length_app in Hfull. cbn [length] in Hfull. unfold maxsize in Hfull.
  rewrite (take_app_length' older [(k, v)] 127) by lia.
  assert (k <> c) as Hkc.
  { intros ->. apply cache_get_None in Hc. apply Hc.
    rewrite Hold, map_app. apply in_or_app. right. left. reflexivity. }
  split; [reflexivity|]. split.
  - cbn [cache_get]. destruct (decide (k = c)); [contradiction|].
    apply cache_get_None. rewrite Hold, map_app in Hnd.
    intros Hin. apply NoDup_app in Hnd as (_ & Hdisj & _).
    apply (Hdisj k); [apply list_elem_of_In, Hin|]. cbn. left.
  - intros k' Hk Hk'. cbn [cache_get].
    destruct (decide (k' = c)); [contradiction|].
    rewrite cache_get_app. cbn [cache_get].
    destruct (decide (k' = k)); [contradiction|].
    destruct (cache_get k' older); reflexivity.
Qed.

(** X14.  Every handler is a new object when it is attached: if no logger
    holds a handler twice and every handler is older than the next object
    to be created, the same holds after any call.  The handlers that a call
    attaches are therefore never ones the logger already holds. *)
Theorem identities_fresh_preserved (c : Call) (st : State) :
  identities_fresh st -> identities_fresh (setup_logger c st).2.
Proof.
  intros Hfresh key. destruct (Hfresh key) as [Hold Hnd].
  destruct (setup_logger_registry c st) as [[Hd Hn]|(a & Hb & Hd & Hn)].
  - unfold handlers_of. rewrite Hd, Hn. split; assumption.
  - destruct (wrapped_added a st) as (added & Hadd & Hnew & Hnd' & Hle).
    unfold handlers_of at 1 2. rewrite Hd, Hn.
    destruct (decide (key = logger_key (arg_name a))) as [->|Hk].
    + change (Forall (fun h => (h_id h < next_id (setup_logger__wrapped__ a st).2)%nat)
                (handlers_of (setup_logger__wrapped__ a st).2 (logger_key (arg_name a)))
              /\ NoDup (map h_id (handlers_of (setup_logger__wrapped__ a st).2
                                    (logger_key (arg_name a))))).
      rewrite Hadd. split.
      * apply List.Forall_app. split.
        -- eapply List.Forall_impl; [|exact Hold]. intros h Hh. cbv beta in Hh |- *. lia.
        -- eapply List.Forall_impl; [|exact Hnew]. intros h Hh. cbv beta in Hh |- *. lia.
      * rewrite map_app. apply NoDup_app. split; [exact Hnd|]. split; [|exact Hnd'].
        intros i Hi Hi'.
        apply list_elem_of_In, in_map_iff in Hi as (h & <- & Hh).
        apply list_elem_of_In, in_map_iff in Hi' as (h' & Heq & Hh').
        rewrite List.Forall_forall in Hold, Hnew.
        specialize (Hold h Hh). specialize (Hnew h' Hh'). cbv beta in Hold, Hnew. lia.
    + rewrite (wrapped_others a st key Hk).
      change (Forall (fun h => (h_id h < next_id (setup_logger__wrapped__ a st).2)%nat)
                (handlers_of st key)
              /\ NoDup (map h_id (handlers_of st key))).
      split; [|exact Hnd].
      eapply List.Forall_impl; [|exact Hold]. intros h Hh. cbv beta in Hh |- *. lia.
Qed.

(** X15.  The same arguments written in another way, by position instead
    of by keyword or with the keywords in another order, are another entry
    of the cache: when neither call is cached and both return, the second
    runs the body again and attaches its handlers behind those of the
    first.  With [use_accelerate] the two calls return two adapters; without
    it both return the one logger. *)
Theorem setup_logger_call_form (c1 c2 : Call) (a : Args) (st st1 st2 : State)
    (r1 r2 : Returned) :
  bind_arguments c1 = inr a ->
  bind_arguments c2 = inr a ->
  c2 <> c1 ->
  cache_get c1 (cache st) = None ->
  cache_get c2 (cache st) = None ->
  setup_logger c1 st = (inr r1, st1) ->
  setup_logger c2 st1 = (inr r2, st2) ->
  handlers_of st2 (logger_key (arg_name a))
  = handlers_of st (logger_key (arg_name a))
    ++ new_handlers a (next_id st) ++ new_handlers a (next_id st1) /\
  (if arg_use_accelerate a then r2 <> r1 else r2 = r1).
Proof.
  intros Hb1 Hb2 Hne Hc1 Hc2.
  rewrite (setup_logger_run c1 a st Hb1 Hc1).
  destruct (setup_logger__wrapped__ a st) as [[e|v1] st'] eqn:Hbody1; [discriminate|].
  intros [= <- <-].
  destruct (LoggerFacts.wrapped_returns a st st' v1 Hbody1) as (Hh1 & Hcache1 & _).
  destruct (wrapped_result a st st' v1 Hbody1) as (_ & Hr1 & _ & Hlt1).
  rewrite setup_logger_run with (a := a); [|exact Hb2|].
  2:{ change (cache_get c2 (take maxsize ((c1, v1) :: cache st')) = None).
      apply LoggerFacts.cache_get_take_none. cbn [cache_get].
      destruct (decide (c2 = c1)); [contradiction|]. rewrite Hcache1. exact Hc2. }
  destruct (setup_logger__wrapped__ a (with_cache st' _)) as [[e|v2] st''] eqn:Hbody2;
    [discriminate|].
  intros [= <- <-].
  destruct (LoggerFacts.wrapped_returns a _ st'' v2 Hbody2) as (Hh2 & _ & _).
  destruct (wrapped_result a _ st'' v2 Hbody2) as (_ & Hr2 & _ & Hlt2).
  change (handlers_of (with_cache ?s _) ?k) with (handlers_of s k) in *.
  change (next_id (with_cache ?s _)) with (next_id s) in *.
  split; [rewrite Hh2, Hh1, <- app_assoc; reflexivity|].
  rewrite Hr1, Hr2. destruct (arg_use_accelerate a); [|reflexivity].
  intros [= Hid]. lia.
Qed.

End Body.

Section Names.

Context `{Externals}.

(** *** [str.replace] *)

Lemma prefix_append (s t : string) : String.prefix s (s ++ t) = true.
Proof.
  induction s as [|c s IH]; [destruct t; reflexivity|].
  rewrite LoggerFacts.append_cons. cbn [String.prefix].
  destruct (ascii_dec c c); [exact IH | contradiction].
Qed.

Lemma prefix_length (s1 s2 : string) :
  String.prefix s1 s2 = true -> (String.length s1 <= String.length s2)%nat.
Proof.
  revert s1. induction s2 as [|b s2 IH]; intros [|a s1]; cbn; try lia; try discriminate.
  destruct (ascii_dec a b); [|discriminate]. intros Hp. specialize (IH s1 Hp). lia.
Qed.

(** A string shorter than [old] does not contain it. *)
Lemma occurs_short (old s : string) :
  (String.length s < String.length old)%nat -> occurs old s = false.
Proof.
  induction s as [|c s IH]; intros Hlen.
  - destruct old; [cbn in Hlen; lia | reflexivity].
  - cbn [occurs]. cbn [String.length] in Hlen.
    rewrite IH by lia. rewrite orb_false_r.
    destruct (String.prefix old (String c s)) eqn:Hp; [|reflexivity].
    apply prefix_length in Hp. cbn [String.length] in Hp. lia.
Qed.

(** Where [old] does not occur, nothing is replaced. *)
Lemma replace_absent (s old new : string) :
  occurs old s = false -> replace s old new = s.
Proof.
  unfold replace. induction s as [|c s IH]; [reflexivity|].
  cbn [occurs replace_from]. intros Hocc. apply orb_false_iff in Hocc as [Hp Hocc].
  rewrite Hp, (IH Hocc). reflexivity.
Qed.

Lemma replace_from_skip (old new s rest : string) :
  replace_from old new (String.length s) (s ++ rest) = replace_from old new 0 rest.
Proof.
  induction s as [|c s IH]; [reflexivity|].
  rewrite LoggerFacts.append_cons. cbn [String.length replace_from]. exact IH.
Qed.

(** A string that starts with [old]: that occurrence is replaced, and the
    scan goes on behind it. *)
Lemma replace_prefix (old new rest : string) :
  old <> EmptyString ->
  replace (old ++ rest) old new = (new ++ replace rest old new)%string.
Proof.
  destruct old as [|c old]; [contradiction|]. intros _. unfold replace.
  pose proof (prefix_append (String c old) rest) as Hp.
  rewrite LoggerFacts.append_cons in Hp |- *. cbn [replace_from]. rewrite Hp.
  replace (String.length (String c old) - 1)%nat with (String.length old)
    by (cbn [String.length]; lia).
  rewrite replace_from_skip. reflexivity.
Qed.

Lemma occurs_tail (old : string) (c : ascii) (s : string) :
  occurs old (String c s) = false -> occurs old s = false.
Proof. cbn [occurs]. intros Hocc. apply orb_false_iff in Hocc. tauto. Qed.

Lemma append_dot_nonempty (root : string) : (root ++ ".")%string <> EmptyString.
Proof. destruct root; discriminate. Qed.

(** *** [_ColorfulFormatter] *)

(** The formatter that [__init__] makes when no abbreviation is passed. *)
Lemma init_default (fmt root : string) :
  _ColorfulFormatter__init__ fmt root None
  = _ColorfulFormatter fmt (root ++ ".") (root ++ "..").
Proof.
  unfold _ColorfulFormatter__init__. cbn [default from_option].
  assert ((0 <? String.length (root ++ "."))%nat = true) as ->.
  { apply Nat.ltb_lt. rewrite TrainMore.string_length_append. cbn. lia. }
  rewrite LoggerFacts.append_assoc. reflexivity.
Qed.

(** The formatter that [__init__] makes of an abbreviation. *)
Lemma init_abbrev (fmt root abbrev : string) :
  _ColorfulFormatter__init__ fmt root (Some abbrev)
  = _ColorfulFormatter fmt (root ++ ".")
      (if String.eqb abbrev "" then "" else abbrev ++ ".").
Proof.
  unfold _ColorfulFormatter__init__. cbn [default from_option].
  destruct abbrev; reflexivity.
Qed.

(** The record as [formatMessage] leaves it. *)
Lemma formatMessage_record (fmt root abbrev : string) (record : LogRecord) :
  (formatMessage (_ColorfulFormatter fmt root abbrev) record).1
  = set_name record (replace (name record) root abbrev).
Proof.
  cbn [formatMessage].
  destruct (Formatter_formatMessage fmt _); [reflexivity|].
  destruct (levelno _ =? WARNING); [reflexivity|].
  destruct ((levelno _ =? ERROR) || (levelno _ =? CRITICAL)); reflexivity.
Qed.

Lemma set_name_same (record : LogRecord) : set_name record (name record) = record.
Proof. destruct record; reflexivity. Qed.

(** A record whose name does not contain the root prefix goes through any
    formatter of the file unchanged. *)
Lemma formatMessage_absent (a : Args) (n : nat) (record : LogRecord) :
  occurs (arg_name a ++ ".") (name record) = false ->
  Forall (fun h => (formatMessage (h_formatter h) record).1 = record)
    (new_handlers a n).
Proof.
  intros Hocc.
  assert (forall f,
             f = (if arg_color a then
                    _ColorfulFormatter__init__
                      (colored "[%(asctime)s %(name)s]: " "green" [] ++ "%(message)s")%string
                      (arg_name a) None
                  else PlainFormatter "[%(asctime)s] %(name)s %(levelname)s: %(message)s") ->
             (formatMessage f record).1 = record) as Hf.
  { intros f ->. destruct (arg_color a); [|reflexivity].
    rewrite init_default, formatMessage_record, replace_absent by exact Hocc.
    apply set_name_same. }
  unfold new_handlers. destruct (arg_output_file a);
    repeat constructor; apply Hf; reflexivity.
Qed.

(** X16.  A record of the logger itself, whose name is the root name,
    keeps its name and every other attribute, whatever the abbreviation:
    the root prefix ends in a dot and so is longer than the name. *)
Theorem formatMessage_own_record (fmt root : string) (abbrev : option string)
    (record : LogRecord) :
  name record = root ->
  (formatMessage (_ColorfulFormatter__init__ fmt root abbrev) record).1 = record.
Proof.
  intros Hname.
  assert (occurs (root ++ ".") (name record) = false) as Hocc.
  { apply occurs_short. rewrite Hname, TrainMore.string_length_append. cbn. lia. }
  destruct abbrev as [abbrev|];
    rewrite ?init_default, ?init_abbrev, formatMessage_record, replace_absent
      by exact Hocc;
    apply set_name_same.
Qed.

(** X17.  A record of a child logger [root.child], under the formatter
    that [setup_logger] builds: the abbreviation defaults to the root
    prefix, which already ends in a dot, and gets one more, so the name
    comes out as [root..child].  The record itself is renamed, and a second
    handler with the same formatter renames it again, to [root...child]. *)
Theorem formatMessage_child_name (fmt root child : string) (record : LogRecord) :
  name record = (root ++ "." ++ child)%string ->
  occurs (root ++ ".") ("." ++ child) = false ->
  let self := _ColorfulFormatter__init__ fmt root None in
  let seen_first := (formatMessage self record).1 in
  let seen_second := (formatMessage self seen_first).1 in
  name seen_first = (root ++ ".." ++ child)%string /\
  name seen_second = (root ++ "..." ++ child)%string.
Proof.
  intros Hname Hocc self seen_first seen_second.
  assert (name seen_first = (root ++ ".." ++ child)%string) as Hfirst.
  { subst seen_first self. rewrite init_default, formatMessage_record.
    cbn [name set_name]. rewrite Hname, <- LoggerFacts.append_assoc.
    rewrite replace_prefix by apply append_dot_nonempty.
    rewrite replace_absent by exact (occurs_tail _ _ _ Hocc).
    apply LoggerFacts.append_assoc. }
  split; [exact Hfirst|].
  subst seen_second. unfold self at 1. rewrite init_default, formatMessage_record.
  cbn [name set_name]. rewrite Hfirst.
  change (root ++ ".." ++ child)%string with (root ++ "." ++ ("." ++ child))%string.
  rewrite <- LoggerFacts.append_assoc.
  rewrite replace_prefix by apply append_dot_nonempty.
  rewrite replace_absent by exact Hocc.
  rewrite LoggerFacts.append_assoc. reflexivity.
Qed.

(** X18.  With an abbreviation passed to [__init__], the root prefix of a
    child logger's name is replaced by the abbreviation and a dot, and
    simply dropped when the abbreviation is empty. *)
Theorem formatMessage_abbreviates (fmt root abbrev child : string)
    (record : LogRecord) :
  name record = (root ++ "." ++ child)%string ->
  occurs (root ++ ".") child = false ->
  name (formatMessage (_ColorfulFormatter__init__ fmt root (Some abbrev)) record).1
  = if String.eqb abbrev "" then child else (abbrev ++ "." ++ child)%string.
Proof.
  intros Hname Hocc. rewrite init_abbrev, formatMessage_record.
  cbn [name set_name]. rewrite Hname, <- LoggerFacts.append_assoc.
  rewrite replace_prefix by apply append_dot_nonempty.
  rewrite replace_absent by exact Hocc.
  destruct (String.eqb abbrev ""); [reflexivity | apply LoggerFacts.append_assoc].
Qed.



(** X20.  With an output file, a record of level DEBUG or above whose
    name does not contain the root prefix is written twice, first to the
    standard output and then to the file, and the two lines are the same
    text: the file handler has the formatter of the console handler, colour
    codes and markers included. *)
Theorem both_streams_same_line (a : Args) (n : nat) (f : string) (record : LogRecord) :
  arg_output_file a = Some f ->
  DEBUG <= levelno record ->
  occurs (arg_name a ++ ".") (name record) = false ->
  exists formatter line,
    map h_formatter (new_handlers a n) = [formatter; formatter] /\
    formatMessage formatter record = (record, line) /\
    callHandlers (new_handlers a n) record = [(Stdout, line); (FileStream f, line)].
Proof.
  intros Hfile Hlevel Hocc.
  pose proof (formatMessage_absent a n record Hocc) as Hsame.
  unfold new_handlers in *. rewrite Hfile in *.
  set (formatter := if arg_color a then _ else _) in *.
  apply List.Forall_cons_iff in Hsame as [Hsame _]. cbn [h_formatter] in Hsame.
  exists formatter, (formatMessage formatter record).2.
  assert ((DEBUG <=? levelno record) = true) as Hd by (apply Z.leb_le; exact Hlevel).
  assert ((NOTSET <=? levelno record) = true) as Hn
      by (apply Z.leb_le; unfold NOTSET, DEBUG in *; lia).
  split; [reflexivity|].
  destruct (formatMessage formatter record) as [record' line] eqn:Hfm.
  cbn [fst snd] in Hsame |- *. subst record'.
  split; [reflexivity|].
  cbn [callHandlers h_level h_formatter h_stream].
  rewrite Hd, Hfm, Hn, Hfm. reflexivity.
Qed.

(** X21.  The console handler is set to DEBUG and the file handler is left
    at NOTSET: a record of a level below DEBUG that reaches the handlers is
    not written to the standard output, and is written to the file when
    there is one. *)
Theorem below_debug_file_only (a : Args) (n : nat) (record : LogRecord) :
  NOTSET <= levelno record < DEBUG ->
  map fst (callHandlers (new_handlers a n) record)
  = match arg_output_file a with
    | Some f => [FileStream f]
    | None => []
    end.
Proof.
  intros [Hlow Hhigh]. unfold new_handlers.
  assert ((DEBUG <=? levelno record) = false) as Hd by (apply Z.leb_gt; exact Hhigh).
  assert ((NOTSET <=? levelno record) = true) as Hn by (apply Z.leb_le; exact Hlow).
  destruct (arg_output_file a) as [f|];
    cbn [callHandlers h_level h_formatter h_stream]; rewrite Hd; [|reflexivity].
  rewrite Hn. destruct (formatMessage _ record) as [record' line]. reflexivity.
Qed.

End Names.


(** The call of [main] where the log file cannot be opened, twice. *)
Lemma setup_logger_unopenable_file_witness :
  exists st1 st2 ch1 ch2,
    setup_logger (H := Scenario.read_only) Scenario.call initial_state
    = (inl (OSError "out/log0.txt"), st1) /\
    handlers_of st1 "ARModel" = handlers_of initial_state "ARModel" ++ [ch1] /\
    cache st1 = cache initial_state /\
    setup_logger (H := Scenario.read_only) Scenario.call st1
    = (inl (OSError "out/log0.txt"), st2) /\
    handlers_of st2 "ARModel" = handlers_of initial_state "ARModel" ++ [ch1; ch2] /\
    is_console ch1 = true /\
    is_console ch2 = true /\
    h_id ch1 <> h_id ch2.
Proof.
  apply (setup_logger_unopenable_file (H := Scenario.read_only) Scenario.call
           {| arg_name := "ARModel"; arg_log_level := Some "INFO"%string;
              arg_color := true; arg_use_accelerate := true;
              arg_output_file := Some "out/log0.txt"%string |}
           "out/log0.txt" initial_state).
  - vm_compute. reflexivity.
  - intros l [= <-]. exists INFO. vm_compute. reflexivity.
  - reflexivity.
  - reflexivity.
  - reflexivity.
Defined.

(** The call of [main] on a fresh process. *)
Lemma setup_logger_result_witness :
  is_Some (loggerDict Scenario.once !! "ARModel"%string) /\
  _checkLevel (H := Scenario.terminal) (upper (Externals := Scenario.terminal) "INFO")
  = inr (level (lookup_logger Scenario.once "ARModel")) /\
  true = true /\ "ARModel"%string = "ARModel"%string
  /\ (0 <= 2 < next_id Scenario.once)%nat.
Proof.
  apply (setup_logger_result (H := Scenario.terminal) Scenario.call
           {| arg_name := "ARModel"; arg_log_level := Some "INFO"%string;
              arg_color := true; arg_use_accelerate := true;
              arg_output_file := Some "out/log0.txt"%string |}
           initial_state Scenario.once (MultiProcessAdapter 2 "ARModel")).
  - vm_compute. reflexivity.
  - reflexivity.
  - vm_compute. reflexivity.
Defined.

Lemma cache_sound_nil : cache_sound [].
Proof. split; [cbn; lia | constructor]. Qed.

Lemma cache_sound_preserved_witness :
  cache_sound (cache initial_state)
  /\ cache_sound
       (cache (setup_logger (H := Scenario.terminal) Scenario.call initial_state).2).
Proof.
  split; [exact cache_sound_nil|].
  apply (cache_sound_preserved (H := Scenario.terminal) Scenario.call initial_state).
  exact cache_sound_nil.
Defined.

Lemma busy_cache_sound : cache_sound (cache Scenario.busy).
Proof.
  split.
  - apply Nat.leb_le. vm_compute. reflexivity.
  - apply (bool_decide_unpack _). vm_compute. exact I.
Qed.

(** The call of [main] after 128 other calls: the first of them is
    forgotten. *)
Lemma setup_logger_evicts_oldest_witness :
  cache_get (Scenario.numbered_call 0) (cache Scenario.busy) = Some (TheLogger "0")
  /\ cache_get (Scenario.numbered_call 0)
       (cache (setup_logger (H := Scenario.terminal) Scenario.call Scenario.busy).2)
     = None.
Proof.
  split; [vm_compute; reflexivity|].
  apply (setup_logger_evicts_oldest (H := Scenario.terminal) Scenario.call
           (Scenario.numbered_call 0) (MultiProcessAdapter 130 "ARModel") (TheLogger "0")
           (removelast (cache Scenario.busy)) Scenario.busy
           (setup_logger (H := Scenario.terminal) Scenario.call Scenario.busy).2).
  - exact busy_cache_sound.
  - vm_compute. reflexivity.
  - vm_compute. reflexivity.
  - vm_compute. reflexivity.
  - vm_compute. reflexivity.
Defined.

Lemma identities_fresh_initial : identities_fresh initial_state.
Proof.
  intros key. unfold handlers_of, initial_state. cbn [loggerDict].
  destruct (decide (key = "root"%string)) as [->|Hne].
  - rewrite lookup_singleton_eq. split; constructor.
  - rewrite lookup_singleton_ne by congruence. split; constructor.
Qed.

Lemma identities_fresh_preserved_witness :
  identities_fresh initial_state
  /\ identities_fresh
       (setup_logger (H := Scenario.terminal) Scenario.call initial_state).2.
Proof.
  split; [exact identities_fresh_initial|].
  apply (identities_fresh_preserved (H := Scenario.terminal) Scenario.call initial_state).
  exact identities_fresh_initial.
Defined.

(** The call of [main], then the same keywords in another order. *)
Lemma setup_logger_call_form_witness :
  handlers_of (setup_logger (H := Scenario.terminal) Scenario.call_reordered
                 Scenario.once).2 "ARModel"
  = handlers_of initial_state "ARModel"
    ++ new_handlers (H := Scenario.terminal)
         {| arg_name := "ARModel"; arg_log_level := Some "INFO"%string;
            arg_color := true; arg_use_accelerate := true;
            arg_output_file := Some "out/log0.txt"%string |} 0
    ++ new_handlers (H := Scenario.terminal)
         {| arg_name := "ARModel"; arg_log_level := Some "INFO"%string;
            arg_color := true; arg_use_accelerate := true;
            arg_output_file := Some "out/log0.txt"%string |} (next_id Scenario.once)
  /\ MultiProcessAdapter 5 "ARModel" <> MultiProcessAdapter 2 "ARModel".
Proof.
  apply (setup_logger_call_form (H := Scenario.terminal)
           Scenario.call Scenario.call_reordered
           {| arg_name := "ARModel"; arg_log_level := Some "INFO"%string;
              arg_color := true; arg_use_accelerate := true;
              arg_output_file := Some "out/log0.txt"%string |}
           initial_state Scenario.once
           (setup_logger (H := Scenario.terminal) Scenario.call_reordered
              Scenario.once).2
           (MultiProcessAdapter 2 "ARModel") (MultiProcessAdapter 5 "ARModel")).
  - vm_compute. reflexivity.
  - vm_compute. reflexivity.
  - discriminate.
  - reflexivity.
  - reflexivity.
  - vm_compute. reflexivity.
  - vm_compute. reflexivity.
Defined.

Lemma formatMessage_own_record_witness :
  (formatMessage (H := Scenario.terminal)
     (_ColorfulFormatter__init__ Scenario.fmt "ARModel" None)
     Scenario.warning_record).1
  = Scenario.warning_record.
Proof.
  apply (formatMessage_own_record (H := Scenario.terminal) Scenario.fmt "ARModel" None
           Scenario.warning_record).
  reflexivity.
Defined.

(** A record of [ARModel.data] is shown as [ARModel..data] on the console
    and as [ARModel...data] in the file. *)
Lemma formatMessage_child_name_witness :
  name (formatMessage (H := Scenario.terminal) Scenario.formatter
          Scenario.child_record).1
  = "ARModel..data"%string
  /\ name (formatMessage (H := Scenario.terminal) Scenario.formatter
             (formatMessage (H := Scenario.terminal) Scenario.formatter
                Scenario.child_record).1).1
     = "ARModel...data"%string.
Proof.
  apply (formatMessage_child_name (H := Scenario.terminal) Scenario.fmt "ARModel" "data"
           Scenario.child_record).
  - reflexivity.
  - vm_compute. reflexivity.
Defined.

Lemma formatMessage_abbreviates_witness :
  name (formatMessage (H := Scenario.terminal)
          (_ColorfulFormatter__init__ Scenario.fmt "ARModel" (Some "AR"%string))
          Scenario.child_record).1
  = "AR.data"%string
  /\ name (formatMessage (H := Scenario.terminal)
             (_ColorfulFormatter__init__ Scenario.fmt "ARModel" (Some ""%string))
             Scenario.child_record).1
     = "data"%string.
Proof.
  split.
  - apply (formatMessage_abbreviates (H := Scenario.terminal) Scenario.fmt "ARModel" "AR"
             "data" Scenario.child_record); [reflexivity | vm_compute; reflexivity].
  - apply (formatMessage_abbreviates (H := Scenario.terminal) Scenario.fmt "ARModel" ""
             "data" Scenario.child_record); [reflexivity | vm_compute; reflexivity].
Defined.


(** The handlers of the call of [main] and a warning: the marker and the
    colour codes go to the file as well. *)
Lemma both_streams_same_line_witness :
  exists formatter line,
    map h_formatter
      (new_handlers (H := Scenario.terminal)
         {| arg_name := "ARModel"; arg_log_level := Some "INFO"%string;
            arg_color := true; arg_use_accelerate := true;
            arg_output_file := Some "out/log0.txt"%string |} 0)
    = [formatter; formatter] /\
    formatMessage (H := Scenario.terminal) formatter Scenario.warning_record
    = (Scenario.warning_record, line) /\
    callHandlers (H := Scenario.terminal)
      (new_handlers (H := Scenario.terminal)
         {| arg_name := "ARModel"; arg_log_level := Some "INFO"%string;
            arg_color := true; arg_use_accelerate := true;
            arg_output_file := Some "out/log0.txt"%string |} 0)
      Scenario.warning_record
    = [(Stdout, line); (FileStream "out/log0.txt", line)].
Proof.
  apply (both_streams_same_line (H := Scenario.terminal)
           {| arg_name := "ARModel"; arg_log_level := Some "INFO"%string;
              arg_color := true; arg_use_accelerate := true;
              arg_output_file := Some "out/log0.txt"%string |} 0
           "out/log0.txt" Scenario.warning_record).
  - reflexivity.
  - apply Z.leb_le. reflexivity.
  - vm_compute. reflexivity.
Defined.

(** A record of level 5 after the call of [main]: the file only. *)
Lemma below_debug_file_only_witness :
  map fst
    (callHandlers (H := Scenario.terminal)
       (new_handlers (H := Scenario.terminal)
          {| arg_name := "ARModel"; arg_log_level := Some "INFO"%string;
             arg_color := true; arg_use_accelerate := true;
             arg_output_file := Some "out/log0.txt"%string |} 0)
       {| name := "ARModel"; levelno := 5; levelname := "Level 5";
          asctime := "11/03 22:16:00"; message := "trace" |})
  = [FileStream "out/log0.txt"].
Proof.
  apply (below_debug_file_only (H := Scenario.terminal)
           {| arg_name := "ARModel"; arg_log_level := Some "INFO"%string;
              arg_color := true; arg_use_accelerate := true;
              arg_output_file := Some "out/log0.txt"%string |} 0
           {| name := "ARModel"; levelno := 5; levelname := "Level 5";
              asctime := "11/03 22:16:00"; message := "trace" |}).
  split; [apply Z.leb_le | apply Z.ltb_lt]; reflexivity.
Defined.

(** The two lines of a record of [ARModel.data] after the call of [main]:
    the console shows two dots, the file three. *)
Example child_lines_differ :
  callHandlers (H := Scenario.terminal) (handlers_of Scenario.once "ARModel")
    Scenario.child_record
  = [(Stdout,
      inr (Scenario.ansi_colored "[11/03 22:16:00 ARModel..data]: " "green" []
           ++ "epoch done")%string);
     (FileStream "out/log0.txt",
      inr (Scenario.ansi_colored "[11/03 22:16:00 ARModel...data]: " "green" []
           ++ "epoch done")%string)].
Proof. vm_compute. reflexivity. Qed.

End LoggerMore.
